(** * Incremental multi-scale registration and surface reconstruction

    A shallow embedding of [pipeline/registration2.py] and of the mesh
    generation of [pipeline/point_cloud_to_mesh.py].

    Python floats are IEEE binary64 numbers, embedded as Rocq's primitive
    floats; Python integers are [Z]; [None] is [option]'s [None]; a raised
    exception is the [Raise] branch of the [res] monad, and [try/except]
    is [try_except].  Dictionaries are [gmap string pyval].

    NumPy and Open3D are third-party libraries of which the repository only
    holds calls: their routines are the fields of the classes [NumPy] and
    [Open3D], so every theorem about the pipeline holds for every behaviour
    of the libraries.  In-place methods ([estimate_normals], [transform],
    [+=]) are functions returning the updated object; [copy.deepcopy] is
    the identity on values.  Text written to standard output is not
    modelled. *)

From Stdlib Require Import ZArith List Bool Floats Lia.
From stdpp Require Import base option list gmap strings.

Set Warnings "-inexact-float".
#[local] Open Scope Z_scope.

(** ** Python values, exceptions and builtins *)

Inductive exn : Set :=
| RuntimeError | TypeError | ValueError | OverflowError
| IndexError | KeyError | AttributeError | ZeroDivisionError | LinAlgError.

Inductive res (A : Type) : Type :=
| Ok (a : A)
| Raise (e : exn).
Arguments Ok {A} a.
Arguments Raise {A} e.

#[global] Instance res_ret : MRet res := fun A a => Ok a.
#[global] Instance res_bind : MBind res := fun A B f m =>
  match m with Ok a => f a | Raise e => Raise e end.

(** [try: body / except Exception as e: handler e] *)
Definition try_except {A} (body : res A) (handler : exn -> res A) : res A :=
  match body with Ok a => Ok a | Raise e => handler e end.

Definition raised {A} (r : res A) : bool :=
  match r with Ok _ => false | Raise _ => true end.

(** [min(a, b)] and [max(a, b)] on floats: the first argument is kept
    unless the second is strictly smaller (resp. greater). *)
Definition py_min (a b : float) : float := if (b <? a)%float then b else a.
Definition py_max (a b : float) : float := if (a <? b)%float then b else a.

(** [float(n)] for an integer in the range of a point count. *)
Definition py_float (n : Z) : float := PrimFloat.of_uint63 (Uint63.of_Z n).

(** [int(x)]: truncation toward zero; raises on NaN and on infinities. *)
Definition py_int (x : float) : res Z :=
  match Prim2SF x with
  | S754_zero _ => Ok 0
  | S754_finite s m e =>
      let a := if 0 <=? e then Z.pos m * 2 ^ e else Z.pos m / 2 ^ (- e) in
      Ok (if s then - a else a)
  | S754_infinity _ => Raise OverflowError
  | S754_nan => Raise ValueError
  end.

(** [np.float32(x)], held as the binary64 number of the same value:
    rounding to nearest, ties to even, at 24 bits of precision. *)
Definition np_float32 (x : float) : float :=
  match Prim2SF x with
  | S754_finite s m e => SF2Prim (binary_round 24 128 s m e)
  | _ => x
  end.

(** [i % n] on integers; Python's result has the sign of [n], as [Z.modulo]. *)
Definition py_mod (i n : Z) : res Z :=
  if n =? 0 then Raise ZeroDivisionError else Ok (i mod n).

(** [l[i]] for a non-negative index. *)
Definition py_index {A} (l : list A) (i : Z) : res A :=
  match l !! Z.to_nat i with
  | Some a => Ok a
  | None => Raise IndexError
  end.

(** [l[-1]] *)
Definition py_last {A} (l : list A) : res A :=
  match last l with Some a => Ok a | None => Raise IndexError end.

(** [enumerate(l, start)] *)
Fixpoint enumerate_from {A} (start : Z) (l : list A) : list (Z * A) :=
  match l with
  | [] => []
  | a :: l' => (start, a) :: enumerate_from (start + 1) l'
  end.

Inductive pyval : Type :=
| PyFloat (f : float)
| PyInt (n : Z)
| PyBool (b : bool).

(** Truth value of an object in a condition. *)
Definition truthy (v : pyval) : bool :=
  match v with
  | PyBool b => b
  | PyInt n => negb (n =? 0)
  | PyFloat f => negb (f =? 0)%float
  end.

(** [d[k]] on a dictionary. *)
Definition getitem (d : gmap string pyval) (k : string) : res pyval :=
  match d !! k with
  | Some v => Ok v
  | None => Raise KeyError
  end.

(** ** Arrays *)

Definition vec3 : Type := float * float * float.

Definition vec3_sub (a b : vec3) : vec3 :=
  let '(ax, ay, az) := a in
  let '(bx, by_, bz) := b in
  ((ax - bx)%float, (ay - by_)%float, (az - bz)%float).

(** [np.prod] of a vector of three components. *)
Definition np_prod (a : vec3) : float :=
  let '(x, y, z) := a in (x * y * z)%float.

(** A 4 x 4 array of floats, by rows. *)
Definition Transform : Type := list (list float).

Definition identity4 : Transform :=
  [ [1; 0; 0; 0]; [0; 1; 0; 0]; [0; 0; 1; 0]; [0; 0; 0; 1] ]%float.

(** [np.any(np.isnan(a))] *)
Definition any_isnan (a : Transform) : bool :=
  existsb (existsb PrimFloat.is_nan) a.

(** [np.any(np.isinf(a))]; the source never calls it, it states the claims. *)
Definition any_isinf (a : Transform) : bool :=
  existsb (existsb PrimFloat.is_infinity) a.

(** A depth map: its element type and its samples by rows. *)
Record ndarray : Type := mk_ndarray {
  dtype_is_float32 : bool;
  samples : list (list float)
}.

Record KDTreeSearchParamHybrid : Type := mk_hybrid {
  radius : float;
  max_nn : Z
}.

Record RegistrationResult : Type := mk_result {
  transformation : Transform;
  fitness : float;
  inlier_rmse : float;
  correspondence_set : list (Z * Z)
}.

(** ** The libraries *)

Class NumPy : Type := {
  (** [np.linalg.norm] of a vector *)
  linalg_norm : vec3 -> float;
  np_median : list float -> float;
  np_quantile : list float -> float -> float;
  np_log2 : float -> float;
  np_allclose : Transform -> Transform -> bool;
  (** [a @ b] *)
  matmul : Transform -> Transform -> Transform;
  linalg_inv : Transform -> res Transform;
  (** [x ** y] on two floats *)
  np_power : float -> float -> float
}.

Class Open3D : Type := {
  PointCloud : Type;
  Feature : Type;
  ColorImage : Type;
  Intrinsic : Type;
  Image : Type;
  RGBDImage : Type;
  (** [len(pcd.points)] *)
  len_points : PointCloud -> Z;
  get_max_bound : PointCloud -> vec3;
  get_min_bound : PointCloud -> vec3;
  has_normals : PointCloud -> bool;
  image_of_color : ColorImage -> Image;
  image_of_depth : ndarray -> Image;
  (** [RGBDImage.create_from_color_and_depth(color, depth, depth_scale,
      depth_trunc, convert_rgb_to_intensity)] *)
  create_from_color_and_depth :
    Image -> Image -> float -> float -> bool -> res RGBDImage;
  create_from_rgbd_image : RGBDImage -> Intrinsic -> res PointCloud;
  (** [pcd.remove_statistical_outlier(nb_neighbors, std_ratio)], first
      component of the result *)
  remove_statistical_outlier : PointCloud -> Z -> float -> res PointCloud;
  voxel_down_sample : PointCloud -> float -> res PointCloud;
  estimate_normals : PointCloud -> KDTreeSearchParamHybrid -> res PointCloud;
  orient_normals_consistent_tangent_plane : PointCloud -> Z -> res PointCloud;
  compute_fpfh_feature : PointCloud -> KDTreeSearchParamHybrid -> res Feature;
  (** [registration_ransac_based_on_feature_matching(source, target,
      source_fpfh, target_fpfh, mutual_filter, max_correspondence_distance,
      point-to-point estimation with scaling flag, ransac_n, edge-length
      checker, distance checker, max_iteration, max_validation)] *)
  registration_ransac_based_on_feature_matching :
    PointCloud -> PointCloud -> Feature -> Feature -> bool -> float ->
    bool -> Z -> float -> float -> Z -> Z -> res RegistrationResult;
  (** [registration_icp(source, target, max_correspondence_distance, init,
      point-to-plane estimation, max_iteration)] *)
  registration_icp :
    PointCloud -> PointCloud -> float -> Transform -> Z -> res RegistrationResult;
  (** [o3d.pipelines.registration.evaluate_registration] *)
  o3d_evaluate_registration :
    PointCloud -> PointCloud -> float -> Transform -> res RegistrationResult;
  (** [pcd.transform(t)] *)
  transform : PointCloud -> Transform -> res PointCloud;
  (** [a += b] *)
  pcd_iadd : PointCloud -> PointCloud -> PointCloud
}.

Section Pipeline.
Context {np : NumPy} {o3d : Open3D}.

(** [np.linalg.norm(np.asarray(pcd.get_max_bound()) -
    np.asarray(pcd.get_min_bound()))] *)
Definition diameter (pcd : PointCloud) : float :=
  linalg_norm (vec3_sub (get_max_bound pcd) (get_min_bound pcd)).

(** *** [create_point_cloud] *)

Definition astype_float32 (depth_map : ndarray) : ndarray :=
  mk_ndarray true (map (map np_float32) (samples depth_map)).

(** One entry of [(depth_map > 0) & (depth_map < depth_trunc * depth_scale)].
    The array holds float32 numbers and the bound is a Python float, which
    NumPy converts to the element type of the array to compare. *)
Definition depth_valid (depth_scale depth_trunc d : float) : bool :=
  (0 <? d)%float && (d <? np_float32 (depth_trunc * depth_scale))%float.

(** [np.sum(depth_mask)] *)
Definition count_valid (depth_scale depth_trunc : float) (depth_map : ndarray) : Z :=
  fold_right
    (fun row n =>
       Z.of_nat (length (List.filter (depth_valid depth_scale depth_trunc) row)) + n)
    0 (samples depth_map).

Definition create_point_cloud (color_image : ColorImage) (depth_map : ndarray)
    (intrinsic : Intrinsic) (depth_scale depth_trunc : float)
  : res (option PointCloud) :=
  let depth_map :=
    if negb (dtype_is_float32 depth_map) then astype_float32 depth_map
    else depth_map in
  if count_valid depth_scale depth_trunc depth_map <? 100 then Ok None
  else
    let color_o3d := image_of_color color_image in
    let depth_o3d := image_of_depth depth_map in
    rgbd ← create_from_color_and_depth color_o3d depth_o3d
             depth_scale depth_trunc false;
    pcd ← create_from_rgbd_image rgbd intrinsic;
    if 0 <? len_points pcd then
      q ← py_int (py_float (len_points pcd) / 1000)%float;
      let nb_neighbors := Z.min 30 (Z.max 10 q) in
      pcd ← remove_statistical_outlier pcd nb_neighbors 2.0%float;
      Ok (Some pcd)
    else Ok (Some pcd).

(** *** [preprocess_point_cloud] *)

Definition preprocess_point_cloud (pcd : PointCloud) (voxel_size : float)
  : res (option PointCloud * option Feature) :=
  if len_points pcd =? 0 then Ok (None, None)
  else
    pcd_down ← voxel_down_sample pcd voxel_size;
    if len_points pcd_down <? 10 then Ok (None, None)
    else
      let radius_normal := (voxel_size * 2)%float in
      let max_nn := Z.min 30 (len_points pcd_down) in
      pcd_down ← estimate_normals pcd_down (mk_hybrid radius_normal max_nn);
      let radius_feature := (voxel_size * 5)%float in
      let max_nn_feature := Z.min 100 (len_points pcd_down) in
      pcd_fpfh ← compute_fpfh_feature pcd_down (mk_hybrid radius_feature max_nn_feature);
      Ok (Some pcd_down, Some pcd_fpfh).

(** *** [execute_global_registration] *)

(** A [None] feature handed to the library call is a type error of the
    call, raised inside the [try]. *)
Definition ransac_call (source_down target_down : PointCloud)
    (source_fpfh target_fpfh : option Feature)
    (distance_threshold : float) (max_iterations max_validation : Z)
  : res RegistrationResult :=
  match source_fpfh, target_fpfh with
  | Some sf, Some tf =>
      registration_ransac_based_on_feature_matching source_down target_down
        sf tf true distance_threshold false 3 0.9%float distance_threshold
        max_iterations max_validation
  | _, _ => Raise TypeError
  end.

Definition execute_global_registration (source_down target_down : option PointCloud)
    (source_fpfh target_fpfh : option Feature) (voxel_size : float)
  : res (option RegistrationResult) :=
  match source_down, target_down with
  | Some source_down, Some target_down =>
      let source_diameter := diameter source_down in
      let target_diameter := diameter target_down in
      let model_diameter := py_min source_diameter target_diameter in
      let distance_threshold :=
        py_min (voxel_size * 1.5)%float (model_diameter * 0.05)%float in
      let point_count := Z.min (len_points source_down) (len_points target_down) in
      let max_iterations := Z.min 4000000 (Z.max 100000 (point_count * 1000)) in
      q ← py_int (py_float point_count * 0.1)%float;
      let max_validation := Z.min 500 (Z.max 50 q) in
      try_except
        (result ← ransac_call source_down target_down source_fpfh target_fpfh
                    distance_threshold max_iterations max_validation;
         Ok (Some result))
        (fun _ => Ok None)
  | _, _ => Ok None
  end.

(** *** [refine_registration] *)

Definition refine_registration (source target : option PointCloud)
    (initial_transform : option Transform) (voxel_size : float)
  : option RegistrationResult :=
  match source, target, initial_transform with
  | Some source, Some target, Some initial_transform =>
      let body :=
        let source_diameter := diameter source in
        let distance_threshold :=
          py_min (voxel_size * 0.4)%float (source_diameter * 0.02)%float in
        let point_count := Z.min (len_points source) (len_points target) in
        q ← py_int (py_float point_count / 1000)%float;
        let max_iteration := Z.min 100 (Z.max 30 q) in
        result ← registration_icp source target distance_threshold
                   initial_transform max_iteration;
        Ok (Some result) in
      match body with
      | Ok r => r
      | Raise _ => None
      end
  | _, _, _ => None
  end.

(** *** [multi_scale_icp] *)

(** One turn of the loop over [enumerate(voxel_sizes)]; [continue] leaves
    [current_transformation] as it is. *)
Definition icp_scale (source target : PointCloud) (i : Z) (voxel_size : float)
    (current_transformation : Transform) : res Transform :=
  '(source_down, source_fpfh) ← preprocess_point_cloud source voxel_size;
  '(target_down, target_fpfh) ← preprocess_point_cloud target voxel_size;
  match source_down, target_down with
  | Some _, Some _ =>
      current_transformation ←
        (if (i =? 0) && np_allclose current_transformation identity4 then
           result ← execute_global_registration source_down target_down
                      source_fpfh target_fpfh voxel_size;
           match result with
           | Some result => Ok (transformation result)
           | None => Ok current_transformation
           end
         else Ok current_transformation);
      let result := refine_registration source_down target_down
                      (Some current_transformation) voxel_size in
      match result with
      | Some result => Ok (transformation result)
      | None => Ok current_transformation
      end
  | _, _ => Ok current_transformation
  end.

Fixpoint icp_scales (source target : PointCloud) (scales : list (Z * float))
    (current_transformation : Transform) : res Transform :=
  match scales with
  | [] => Ok current_transformation
  | (i, voxel_size) :: rest =>
      current_transformation ←
        icp_scale source target i voxel_size current_transformation;
      icp_scales source target rest current_transformation
  end.

Definition multi_scale_icp (source target : option PointCloud)
    (voxel_sizes : option (list float)) : res (option Transform) :=
  match source, target with
  | Some source, Some target =>
      let voxel_sizes :=
        match voxel_sizes with
        | Some voxel_sizes => voxel_sizes
        | None =>
            let source_diameter := diameter source in
            let base_voxel_size := (source_diameter * 0.01)%float in
            [ (base_voxel_size * 4)%float; (base_voxel_size * 2)%float;
              base_voxel_size ]
        end in
      current_transformation ←
        icp_scales source target (enumerate_from 0 voxel_sizes) identity4;
      if negb (any_isnan current_transformation)
      then Ok (Some current_transformation)
      else Ok (Some identity4)
  | _, _ => Ok None
  end.

(** *** [evaluate_registration] *)

(** [min(threshold, source_diameter * 0.01)] *)
Definition adaptive_threshold (threshold source_diameter : float) : float :=
  py_min threshold (source_diameter * 0.01)%float.

Definition evaluate_registration (source target : option PointCloud)
    (transformation : Transform) (threshold : float) : gmap string pyval :=
  match source, target with
  | Some source, Some target =>
      let body :=
        let source_diameter := diameter source in
        let adaptive_threshold := adaptive_threshold threshold source_diameter in
        evaluation ← o3d_evaluate_registration source target
                       adaptive_threshold transformation;
        let metrics : gmap string pyval :=
          {[ "fitness" := PyFloat (fitness evaluation);
             "inlier_rmse" := PyFloat (inlier_rmse evaluation);
             "correspondence_set" :=
               PyInt (Z.of_nat (length (correspondence_set evaluation)));
             "success" :=
               PyBool ((0.3 <? fitness evaluation)%float
                       && (inlier_rmse evaluation <? adaptive_threshold * 2)%float) ]} in
        Ok metrics in
      match body with
      | Ok metrics => metrics
      | Raise _ =>
          {[ "fitness" := PyInt 0; "inlier_rmse" := PyFloat infinity;
             "correspondence_set" := PyInt 0; "success" := PyBool false ]}
      end
  | _, _ =>
      {[ "fitness" := PyInt 0; "inlier_rmse" := PyFloat infinity;
         "correspondence_set" := PyInt 0 ]}
  end.

(** The default [threshold=0.02] of [evaluate_registration]. *)
Definition evaluate_registration_default_threshold : float := 0.02%float.

(** *** [incremental_registration] *)

(** The running state of the fusion loop: the local variables [merged] and
    [transformations]. *)
Record FusedModel : Type := mk_model {
  merged : PointCloud;
  transformations : list Transform
}.

(** [[voxel_size * 4, voxel_size * 2, voxel_size]] *)
Definition scale_schedule (voxel_size : float) : list float :=
  [ (voxel_size * 4)%float; (voxel_size * 2)%float; voxel_size ].

(** The loop that gathers [diameters] when [voxel_size is None];
    [len(pcd.points)] on a [None] entry is an attribute error. *)
Fixpoint collect_diameters (pcd_list : list (option PointCloud))
    (diameters : list float) : res (list float) :=
  match pcd_list with
  | [] => Ok diameters
  | None :: _ => Raise AttributeError
  | Some pcd :: rest =>
      collect_diameters rest
        (if 0 <? len_points pcd then diameters ++ [diameter pcd] else diameters)
  end.

(** [[pcd for pcd in pcd_list if pcd is not None and len(pcd.points) > 0]] *)
Fixpoint valid_clouds (pcd_list : list (option PointCloud)) : list PointCloud :=
  match pcd_list with
  | [] => []
  | Some pcd :: rest =>
      if 0 <? len_points pcd then pcd :: valid_clouds rest else valid_clouds rest
  | None :: rest => valid_clouds rest
  end.

(** The branch [if metrics["success"]:] of the loop body: transform the
    frame, add it to [merged], record the transformation, and clean up when
    [i % batch_size == 0]. *)
Definition merge_frame (voxel_size : float) (batch_size : Z) (i : Z)
    (current_pcd : PointCloud) (transformation : Transform) (st : FusedModel)
  : res FusedModel :=
  current_transformed ← transform current_pcd transformation;
  let merged := pcd_iadd (merged st) current_transformed in
  let transformations := transformations st ++ [transformation] in
  r ← py_mod i batch_size;
  if r =? 0 then
    merged ← voxel_down_sample merged voxel_size;
    merged ← remove_statistical_outlier merged 20 2.0%float;
    Ok (mk_model merged transformations)
  else Ok (mk_model merged transformations).

(** The body of [for i in range(1, len(valid_pcd_list))] for the frame
    [current_pcd = valid_pcd_list[i]]. *)
Definition fuse_frame (voxel_size : float) (batch_size : Z) (i : Z)
    (current_pcd : PointCloud) (st : FusedModel) : res FusedModel :=
  transformation ← multi_scale_icp (Some current_pcd) (Some (merged st))
                     (Some (scale_schedule voxel_size));
  match transformation with
  | None => Ok st
  | Some transformation =>
      let metrics := evaluate_registration (Some current_pcd) (Some (merged st))
                       transformation (voxel_size * 2)%float in
      success ← getitem metrics "success";
      if truthy success
      then merge_frame voxel_size batch_size i current_pcd transformation st
      else Ok st
  end.

Fixpoint fuse_loop (voxel_size : float) (batch_size : Z)
    (frames : list (Z * PointCloud)) (st : FusedModel) : res FusedModel :=
  match frames with
  | [] => Ok st
  | (i, current_pcd) :: rest =>
      st ← fuse_frame voxel_size batch_size i current_pcd st;
      fuse_loop voxel_size batch_size rest st
  end.

(** [a ** y] on an array, entry by entry. *)
Definition array_power (a : Transform) (y : float) : Transform :=
  map (map (fun x => np_power x y)) a.

(** [for t in transformations[1:]: accumulated_transform = accumulated_transform @ t] *)
Definition accumulate_transforms (transformations : list Transform) : Transform :=
  fold_left matmul (tail transformations) identity4.

(** [for i in range(6): error_root = error_root @ np.linalg.inv(error_per_transform) ** (1/6)] *)
Fixpoint error_root_loop (n : nat) (error_per_transform error_root : Transform)
  : res Transform :=
  match n with
  | O => Ok error_root
  | S n' =>
      inverse ← linalg_inv error_per_transform;
      error_root_loop n' error_per_transform
        (matmul error_root (array_power inverse (1 / 6)%float))
  end.

(** The part of the [try] block that comes before [merged] is assigned:
    [Ok (Some error_root)] when the loop-closure gate passes. *)
Definition loop_closure_gate (valid_pcd_list : list PointCloud)
    (voxel_size : float) (st : FusedModel) : res (option Transform) :=
  first_pcd ← py_index valid_pcd_list 0;
  last_pcd ← py_last valid_pcd_list;
  let accumulated_transform := accumulate_transforms (transformations st) in
  last_transformed ← transform last_pcd accumulated_transform;
  loop_transform ← multi_scale_icp (Some last_transformed) (Some first_pcd)
                     (Some (scale_schedule voxel_size));
  match loop_transform with
  | None => Ok None
  | Some loop_transform =>
      let metrics := evaluate_registration (Some last_transformed) (Some first_pcd)
                       loop_transform (voxel_size * 2)%float in
      success ← getitem metrics "success";
      if truthy success then
        error_per_transform ← linalg_inv (matmul accumulated_transform loop_transform);
        error_root ← error_root_loop 6 error_per_transform identity4;
        Ok (Some error_root)
      else Ok None
  end.

(** [for i in range(1, len(valid_pcd_list))] of the rebuild, over the local
    variable [merged]: when a turn raises, [merged] keeps the value it had
    at the start of that turn. *)
Fixpoint rebuild (transformations : list Transform) (error_root : Transform)
    (frames : list (Z * PointCloud)) (merged : PointCloud)
  : PointCloud * option exn :=
  match frames with
  | [] => (merged, None)
  | (i, current_pcd) :: rest =>
      let turn :=
        t ← py_index transformations i;
        let corrected_transform := matmul t (array_power error_root (py_float i)) in
        transform current_pcd corrected_transform in
      match turn with
      | Ok current_transformed =>
          rebuild transformations error_root rest (pcd_iadd merged current_transformed)
      | Raise e => (merged, Some e)
      end
  end.

(** [if len(valid_pcd_list) > 10: try: ... except Exception: print(...)]:
    the value of [merged] afterwards and the exception the handler caught. *)
Definition loop_closure (valid_pcd_list : list PointCloud) (voxel_size : float)
    (st : FusedModel) : PointCloud * option exn :=
  if 10 <? Z.of_nat (length valid_pcd_list) then
    match loop_closure_gate valid_pcd_list voxel_size st with
    | Raise e => (merged st, Some e)
    | Ok None => (merged st, None)
    | Ok (Some error_root) =>
        match valid_pcd_list with
        | [] => (merged st, Some IndexError)
        | first_pcd :: rest =>
            rebuild (transformations st) error_root (enumerate_from 1 rest) first_pcd
        end
    end
  else (merged st, None).

(** Final cleanup and normals. *)
Definition finalize (voxel_size : float) (merged : PointCloud) : res PointCloud :=
  merged ← voxel_down_sample merged voxel_size;
  merged ← remove_statistical_outlier merged 20 2.0%float;
  merged ← estimate_normals merged (mk_hybrid (voxel_size * 2)%float 30);
  merged ← orient_normals_consistent_tangent_plane merged 15;
  Ok merged.

(** The seed of the loop: [merged = copy.deepcopy(valid_pcd_list[0])],
    [transformations = [np.identity(4)]]. *)
Definition seed (first_pcd : PointCloud) : FusedModel :=
  mk_model first_pcd [identity4].

Definition default_batch_size : Z := 4.

Definition incremental_registration (pcd_list : list (option PointCloud))
    (voxel_size : option float) (batch_size : Z) : res (option PointCloud) :=
  if bool_decide (pcd_list = []) || (Z.of_nat (length pcd_list) <? 2) then
    match pcd_list with
    | [] => Ok None
    | pcd :: _ => Ok pcd
    end
  else
    voxel_size ←
      match voxel_size with
      | Some voxel_size => Ok voxel_size
      | None =>
          diameters ← collect_diameters pcd_list [];
          match diameters with
          | [] => Ok 0.05%float
          | _ => Ok (np_median diameters * 0.01)%float
          end
      end;
    let valid_pcd_list := valid_clouds pcd_list in
    match valid_pcd_list with
    | [] => Ok None
    | first_pcd :: rest =>
        st ← fuse_loop voxel_size batch_size (enumerate_from 1 rest) (seed first_pcd);
        let merged := fst (loop_closure valid_pcd_list voxel_size st) in
        merged ← finalize voxel_size merged;
        Ok (Some merged)
    end.

(** *** Notions used to state the properties *)

(** The judgment of [evaluate_registration] as a function of what the
    library evaluation answers at the adaptive threshold. *)
Definition judged (threshold : float) (source target : PointCloud)
    (t : Transform) : bool :=
  let adaptive := py_min threshold (diameter source * 0.01)%float in
  match o3d_evaluate_registration source target adaptive t with
  | Ok evaluation =>
      (0.3 <? fitness evaluation)%float
      && (inlier_rmse evaluation <? adaptive * 2)%float
  | Raise _ => false
  end.

(** The voxel sizes the loop of [multi_scale_icp] runs over. *)
Definition chosen_scales (source : PointCloud) (voxel_sizes : option (list float))
  : list float :=
  match voxel_sizes with
  | Some voxel_sizes => voxel_sizes
  | None =>
      [ (diameter source * 0.01 * 4)%float; (diameter source * 0.01 * 2)%float;
        (diameter source * 0.01)%float ]
  end.

End Pipeline.

(** ** Mesh reconstruction *)

Class Open3DMesh {o3d : Open3D} : Type := {
  TriangleMesh : Type;
  (** [TriangleMesh.create_from_point_cloud_poisson(pcd, depth, width,
      scale, linear_fit)]: the mesh and the density of each vertex *)
  create_from_point_cloud_poisson :
    PointCloud -> Z -> Z -> float -> bool -> res (TriangleMesh * list float);
  remove_vertices_by_mask : TriangleMesh -> list bool -> res TriangleMesh;
  remove_degenerate_triangles : TriangleMesh -> TriangleMesh;
  remove_duplicated_triangles : TriangleMesh -> TriangleMesh;
  remove_duplicated_vertices : TriangleMesh -> TriangleMesh;
  remove_non_manifold_edges : TriangleMesh -> TriangleMesh
}.

Section Reconstruction.
Context {np : NumPy} {o3d : Open3D} {o3dm : Open3DMesh}.

(** [densities < t], entry by entry *)
Definition densities_below (densities : list float) (t : float) : list bool :=
  map (fun d => (d <? t)%float) densities.

Definition create_mesh_from_point_cloud (pcd : option PointCloud)
    (voxel_size : option float) : res (option TriangleMesh) :=
  match pcd with
  | None => Ok None
  | Some pcd =>
      if len_points pcd =? 0 then Ok None
      else
        let voxel_size :=
          match voxel_size with
          | Some voxel_size => voxel_size
          | None => (diameter pcd * 0.005)%float
          end in
        pcd ←
          (if negb (has_normals pcd) then
             pcd ← estimate_normals pcd (mk_hybrid (voxel_size * 2)%float 30);
             orient_normals_consistent_tangent_plane pcd 15
           else Ok pcd);
        let point_density :=
          (py_float (len_points pcd)
           / np_prod (vec3_sub (get_max_bound pcd) (get_min_bound pcd)))%float in
        q ← py_int (np_log2 point_density + 6)%float;
        let depth := Z.min 12 (Z.max 8 q) in
        '(mesh, densities) ← create_from_point_cloud_poisson pcd depth 0 1.1%float true;
        let density_threshold := np_quantile densities 0.1%float in
        let vertices_to_remove := densities_below densities density_threshold in
        mesh ← remove_vertices_by_mask mesh vertices_to_remove;
        let mesh := remove_degenerate_triangles mesh in
        let mesh := remove_duplicated_triangles mesh in
        let mesh := remove_duplicated_vertices mesh in
        let mesh := remove_non_manifold_edges mesh in
        Ok (Some mesh)
  end.

End Reconstruction.

(** [pipeline/point_cloud_to_mesh.py] *)
Module PointCloudToMesh.
Section PointCloudToMesh.
Context {np : NumPy} {o3d : Open3D} {o3dm : Open3DMesh}.

Definition default_voxel_size : float := 0.05%float.

Definition preprocess_point_cloud (pcd : PointCloud) (voxel_size : float)
  : res PointCloud :=
  pcd_down ← voxel_down_sample pcd voxel_size;
  estimate_normals pcd_down (mk_hybrid (voxel_size * 2)%float 30).

Definition remove_outliers (pcd : PointCloud) (nb_neighbors : Z) (std_ratio : float)
  : res PointCloud :=
  remove_statistical_outlier pcd nb_neighbors std_ratio.

Definition generate_mesh_from_point_cloud (pcd : PointCloud) (depth : Z)
    (preprocessing : bool) : res TriangleMesh :=
  pcd ←
    (if preprocessing then
       pcd ← preprocess_point_cloud pcd default_voxel_size;
       remove_outliers pcd 20 2.0%float
     else Ok pcd);
  '(mesh, densities) ← create_from_point_cloud_poisson pcd depth 0 1.1%float false;
  let vertices_to_remove :=
    densities_below densities (np_quantile densities 0.1%float) in
  mesh ← remove_vertices_by_mask mesh vertices_to_remove;
  let mesh := remove_degenerate_triangles mesh in
  let mesh := remove_duplicated_triangles mesh in
  let mesh := remove_duplicated_vertices mesh in
  let mesh := remove_non_manifold_edges mesh in
  Ok mesh.

End PointCloudToMesh.
End PointCloudToMesh.

(** ** Voxel downsampling as the specification describes it

    Open3D's [voxel_down_sample] is not part of the repository.  The module
    below models it from the wording of the specification: points are
    triples of floats, and arithmetic on them is binary64 arithmetic. *)

Module VoxelGrid.

(** Modelled from the spec: a point of a cloud, a triple of floats. *)
Definition Point : Type := float * float * float.

(** The largest integer that is not above [x]; none for NaN and for the
    infinities. *)
Definition floor (x : float) : option Z :=
  match Prim2SF x with
  | S754_zero _ => Some 0
  | S754_finite s m e => Some (Z.shiftl (if s then Z.neg m else Z.pos m) e)
  | S754_infinity _ => None
  | S754_nan => None
  end.

Definition Key : Type := option Z * option Z * option Z.

(** An occupied voxel: the sum and the number of its members. *)
Record Bucket : Type := mk_bucket {
  key : Key;
  total : Point;
  members : positive
}.

Definition point_add (p q : Point) : Point :=
  let '(x, y, z) := p in
  let '(x', y', z') := q in (x + x', y + y', z + z')%float.

Definition point_div (p : Point) (n : positive) : Point :=
  let '(x, y, z) := p in
  let count := py_float (Z.pos n) in
  (x / count, y / count, z / count)%float.

(** Modelled from the spec: "the centroid of its members". *)
Definition centroid (b : Bucket) : Point := point_div (total b) (members b).

Section Grid.

(** Modelled from the spec: the specification gives the edge of the voxels
    and not where the grid starts.  [anchor points v] is the corner the
    voxels of edge [v] are counted from when [points] is downsampled. *)
Variable anchor : list Point -> float -> Point.

(** Modelled from the spec: the grid has edge length [v]; along one axis
    the cell of [x] is the integer part of the distance of [x] from the
    corner [o], counted in edges. *)
Definition cell (o v x : float) : option Z := floor ((x - o) / v)%float.

(** Modelled from the spec: the voxel a point falls into. *)
Definition voxel_of (o : Point) (v : float) (p : Point) : Key :=
  let '(ox, oy, oz) := o in
  let '(x, y, z) := p in (cell ox v x, cell oy v y, cell oz v z).

(** Modelled from the spec: "buckets points into a voxel grid"; a point
    joins the bucket of its voxel, or opens one. *)
Fixpoint add_point (o : Point) (v : float) (p : Point) (buckets : list Bucket)
  : list Bucket :=
  match buckets with
  | [] => [mk_bucket (voxel_of o v p) p 1]
  | b :: rest =>
      if decide (key b = voxel_of o v p)
      then mk_bucket (key b) (point_add (total b) p) (Pos.succ (members b)) :: rest
      else b :: add_point o v p rest
  end.

Definition fill (o : Point) (v : float) (points : list Point) : list Bucket :=
  fold_left (fun buckets p => add_point o v p buckets) points [].

(** Modelled from the spec: voxel downsampling, which "replaces each
    occupied voxel with the centroid of its members"; the library routine
    [voxel_down_sample] is missing from the sources. *)
Definition voxel_down_sample (v : float) (points : list Point) : list Point :=
  map centroid (fill (anchor points v) v points).

(** The voxels of the points of a cloud, in the grid that is used when that
    cloud is downsampled. *)
Definition voxels (v : float) (points : list Point) : list Key :=
  map (voxel_of (anchor points v) v) points.

End Grid.

(** A grid that starts at the origin. *)
Definition at_origin (points : list Point) (v : float) : Point := (0, 0, 0)%float.

(** The least of the numbers of a list. *)
Definition least (xs : list float) : float :=
  match xs with
  | [] => 0%float
  | x :: rest => fold_left py_min rest x
  end.

(** A grid that starts half a voxel below the least coordinates of the
    cloud, so that it moves with the cloud. *)
Definition at_bounds (points : list Point) (v : float) : Point :=
  (least (map (fun p => p.1.1) points) - v * 0.5,
   least (map (fun p => p.1.2) points) - v * 0.5,
   least (map (fun p => p.2) points) - v * 0.5)%float.

End VoxelGrid.

(** ** Mesh routines for the runs

    Open3D's mesh routines are not part of the repository either, and the
    pipeline is proved for every behaviour of them.  For the runs, the
    module below gives cleanup routines on meshes of vertex positions and
    index triples.  Its test for a degenerate triangle looks at the indices
    of the triangle, which is how the reference of Open3D describes
    [remove_degenerate_triangles]. *)

Module MeshModel.
Section Mesh.
Context {V : Type} `{EqDecision V}.

Definition Triangle : Type := nat * nat * nat.

(** A mesh: a vertex list of positions and a list of triples of vertex
    indices. *)
Record Mesh : Type := mk_mesh {
  vertices : list V;
  triangles : list Triangle
}.

(** The positions of the corners of a triangle. *)
Definition corners (vs : list V) (t : Triangle) : option (V * V * V) :=
  let '(a, b, c) := t in
  match vs !! a, vs !! b, vs !! c with
  | Some p, Some q, Some r => Some (p, q, r)
  | _, _, _ => None
  end.

(** A triangle that names one vertex more than once. *)
Definition degenerate (t : Triangle) : bool :=
  let '(a, b, c) := t in
  Nat.eqb a b || Nat.eqb b c || Nat.eqb c a.

Definition remove_degenerate_triangles (m : Mesh) : Mesh :=
  mk_mesh (vertices m) (List.filter (fun t => negb (degenerate t)) (triangles m)).

Definition remove_duplicated_triangles (m : Mesh) : Mesh :=
  mk_mesh (vertices m) (remove_dups (triangles m)).

(** The index in [new] of the position that [old] holds at [i]. *)
Definition reindex (old new : list V) (i : nat) : nat :=
  match old !! i with
  | Some p =>
      match list_find (fun q => p = q) new with
      | Some (j, _) => j
      | None => i
      end
  | None => i
  end.

(** One vertex is kept for each position and the triangles point to the
    vertices kept. *)
Definition remove_duplicated_vertices (m : Mesh) : Mesh :=
  let kept := remove_dups (vertices m) in
  let move := reindex (vertices m) kept in
  mk_mesh kept (map (fun '(a, b, c) => (move a, move b, move c)) (triangles m)).

Definition edges (t : Triangle) : list (nat * nat) :=
  let '(a, b, c) := t in
  [ (Nat.min a b, Nat.max a b); (Nat.min b c, Nat.max b c);
    (Nat.min c a, Nat.max c a) ].

(** The number of triangles an edge belongs to. *)
Definition sharing (ts : list Triangle) (e : nat * nat) : nat :=
  length (List.filter (fun t => bool_decide (e ∈ edges t)) ts).

(** The triangles on an edge that more than two triangles share are
    dropped. *)
Definition remove_non_manifold_edges (m : Mesh) : Mesh :=
  mk_mesh (vertices m)
    (List.filter
       (fun t => forallb (fun e => sharing (triangles m) e <=? 2)%nat (edges t))
       (triangles m)).

(** The mesh routines of the library, with the four cleanup routines above;
    Poisson reconstruction and vertex removal are left open. *)
Definition mesh_library {o3d : Open3D}
    (poisson : PointCloud -> Z -> Z -> float -> bool -> res (Mesh * list float))
    (by_mask : Mesh -> list bool -> res Mesh) : Open3DMesh :=
  Build_Open3DMesh o3d Mesh poisson by_mask
    remove_degenerate_triangles remove_duplicated_triangles
    remove_duplicated_vertices remove_non_manifold_edges.

End Mesh.
End MeshModel.

(** ** An executable stand-in for the libraries

    Clouds are terms that record which library routine built them, so that a
    run of the pipeline shows every call it made.  The registration routines
    answer with fixed results: ICP returns [icp_out], and the evaluation of
    a source cloud returns the fitness and RMSE that [quality] gives to the
    tag of the frame the source was built from. *)
Module Sym.

Inductive cloud : Type :=
| Scan (tag : Z) (points : Z) (extent : vec3)
| Merged (a b : cloud)
| Moved (c : cloud) (t : Transform)
| Down (c : cloud) (voxel_size : float)
| Inliers (c : cloud) (nb_neighbors : Z) (std_ratio : float)
| WithNormals (c : cloud) (p : KDTreeSearchParamHybrid)
| Oriented (c : cloud) (k : Z).

Fixpoint tag_of (c : cloud) : Z :=
  match c with
  | Scan tag _ _ => tag
  | Merged a _ => tag_of a
  | Moved c _ | Down c _ | Inliers c _ _ | WithNormals c _ | Oriented c _ => tag_of c
  end.

Fixpoint size (c : cloud) : Z :=
  match c with
  | Scan _ points _ => points
  | Merged a b => size a + size b
  | Moved c _ | Down c _ | Inliers c _ _ | WithNormals c _ | Oriented c _ => size c
  end.

(** The bounding box of a cloud reaches from the origin to its extent. *)
Fixpoint extent_of (c : cloud) : vec3 :=
  match c with
  | Scan _ _ extent => extent
  | Merged a b =>
      let '(ax, ay, az) := extent_of a in
      let '(bx, by_, bz) := extent_of b in
      (py_max ax bx, py_max ay by_, py_max az bz)
  | Moved c _ | Down c _ | Inliers c _ _ | WithNormals c _ | Oriented c _ => extent_of c
  end.

Fixpoint normals (c : cloud) : bool :=
  match c with
  | Scan _ _ _ => false
  | Merged a b => normals a && normals b
  | WithNormals _ _ | Oriented _ _ => true
  | Moved c _ | Down c _ | Inliers c _ _ => normals c
  end.

(** Does a cloud term contain a [Down] node, i.e. was it ever downsampled? *)
Fixpoint downsampled (c : cloud) : bool :=
  match c with
  | Scan _ _ _ => false
  | Merged a b => downsampled a || downsampled b
  | Down _ _ => true
  | Moved c _ | Inliers c _ _ | WithNormals c _ | Oriented c _ => downsampled c
  end.

(** The tags of the frames a cloud is made of, in order. *)
Fixpoint frames_of (c : cloud) : list Z :=
  match c with
  | Scan tag _ _ => [tag]
  | Merged a b => frames_of a ++ frames_of b
  | Moved c _ | Down c _ | Inliers c _ _ | WithNormals c _ | Oriented c _ => frames_of c
  end.

Definition entry (a : Transform) (i j : nat) : float :=
  match a !! i with
  | Some row => match row !! j with Some x => x | None => 0%float end
  | None => 0%float
  end.

Definition matmul4 (a b : Transform) : Transform :=
  map (fun i =>
         map (fun j =>
                (entry a i 0 * entry b 0 j + entry a i 1 * entry b 1 j
                 + entry a i 2 * entry b 2 j + entry a i 3 * entry b 3 j)%float)
             (seq 0 4))
      (seq 0 4).

(** Inverse of a rigid transform: the rotation block transposed, and the
    translation turned back through it. *)
Definition rigid_inverse (a : Transform) : Transform :=
  let r i j := entry a j i in
  let t i := (- (r i 0%nat * entry a 0 3 + r i 1%nat * entry a 1 3
                 + r i 2%nat * entry a 2 3))%float in
  [ [r 0 0; r 0 1; r 0 2; t 0]; [r 1 0; r 1 1; r 1 2; t 1];
    [r 2 0; r 2 1; r 2 2; t 2]; [0; 0; 0; 1]%float ]%nat.

Definition close (x y : float) : bool :=
  (abs (x - y) <=? 1e-8 + 1e-5 * abs y)%float.

Fixpoint all2 {A} (p : A -> A -> bool) (l k : list A) : bool :=
  match l, k with
  | [], [] => true
  | x :: l', y :: k' => p x y && all2 p l' k'
  | _, _ => false
  end.

Fixpoint insert_sorted (x : float) (l : list float) : list float :=
  match l with
  | [] => [x]
  | y :: l' => if (x <=? y)%float then x :: l else y :: insert_sorted x l'
  end.

Definition sort (l : list float) : list float := fold_right insert_sorted [] l.

Definition median (l : list float) : float :=
  let s := sort l in
  let n := length s in
  if Nat.even n
  then ((nth (n / 2 - 1) s 0 + nth (n / 2) s 0) / 2)%float
  else nth (n / 2) s 0%float.

(** Powers with base 0 or 1, or exponent 0 or 1, are exact; the examples
    reach no other, which are given the base. *)
Definition power (x y : float) : float :=
  if (y =? 0)%float then 1%float
  else if (x =? 1)%float then 1%float
  else if (x =? 0)%float then 0%float
  else x.

(** The binary logarithm rounded down, for arguments from 1 upwards. *)
Definition log2_floor (x : float) : float :=
  match Prim2SF x with
  | S754_finite false m e => py_float (Z.max 0 (Z.log2 (Z.pos m) + e))
  | _ => x
  end.

(** The Euclidean norm, the median of a sorted copy, the lowest entry for
    a lower quantile, and the routines above. *)
Definition numpy : NumPy := {|
  linalg_norm := fun '(x, y, z) => sqrt (x * x + y * y + z * z)%float;
  np_median := median;
  np_quantile := fun l q => nth 0 (sort l) 0%float;
  np_log2 := log2_floor;
  np_allclose := all2 (all2 close);
  matmul := matmul4;
  linalg_inv := fun a => Ok (rigid_inverse a);
  np_power := power
|}.

Definition unit_result (t : Transform) (fitness rmse : float) : RegistrationResult :=
  mk_result t fitness rmse [].

Definition positive_samples (depth : ndarray) : Z :=
  fold_right (fun row n =>
                Z.of_nat (length (List.filter (fun d => (0 <? d)%float) row)) + n)
             0 (samples depth).

(** Downsampling, outlier removal and normals keep every point and wrap the
    term; downsampling refuses a voxel size that is not positive; feature
    matching answers with the identity. *)
Definition open3d (quality : Z -> float * float) (icp_out : Transform) : Open3D := {|
  PointCloud := cloud;
  Feature := unit;
  ColorImage := unit;
  Intrinsic := unit;
  Image := option ndarray;
  RGBDImage := ndarray;
  len_points := size;
  get_max_bound := extent_of;
  get_min_bound := fun _ => (0, 0, 0)%float;
  has_normals := normals;
  image_of_color := fun _ => None;
  image_of_depth := Some;
  create_from_color_and_depth := fun _ depth _ _ _ =>
    match depth with Some d => Ok d | None => Raise TypeError end;
  create_from_rgbd_image := fun rgbd _ =>
    Ok (Scan 0 (positive_samples rgbd) (1, 1, 1)%float);
  remove_statistical_outlier := fun c nb std => Ok (Inliers c nb std);
  voxel_down_sample := fun c v =>
    if (0 <? v)%float then Ok (Down c v) else Raise RuntimeError;
  estimate_normals := fun c p => Ok (WithNormals c p);
  orient_normals_consistent_tangent_plane := fun c k => Ok (Oriented c k);
  compute_fpfh_feature := fun _ _ => Ok tt;
  registration_ransac_based_on_feature_matching :=
    fun _ _ _ _ _ _ _ _ _ _ _ _ => Ok (unit_result identity4 1 0);
  registration_icp := fun _ _ _ _ _ => Ok (unit_result icp_out 1 0);
  o3d_evaluate_registration := fun source _ _ t =>
    let '(fitness, rmse) := quality (tag_of source) in
    Ok (unit_result t fitness rmse);
  transform := fun c t => Ok (Moved c t);
  pcd_iadd := Merged
|}.

End Sym.

(** ** Concrete runs on the stand-in *)
Module Run.

(** A captured frame: 1000 points in a box of 6 by 8 units, of diagonal
    10. *)
Definition scan (tag : Z) : Sym.cloud := Sym.Scan tag 1000 (6, 8, 0)%float.

(** Frames with a tag in [poor] align badly (fitness 0.1); the others align
    well (fitness 0.9, RMSE 0.001). *)
Definition quality (poor : list Z) (tag : Z) : float * float :=
  if existsb (Z.eqb tag) poor then (0.1, 0)%float else (0.9, 0.001)%float.

(** Every frame is already in place: ICP answers with the identity. *)
Definition lib (poor : list Z) : Open3D := Sym.open3d (quality poor) identity4.

(** A library whose evaluation answers fitness 0.5 and RMSE 0.05. *)
Definition lib_loose : Open3D :=
  Sym.open3d (fun _ => (0.5, 0.05)%float) identity4.

Definition with_entry (x : float) : Transform :=
  [ [1; 0; 0; x]; [0; 1; 0; 0]; [0; 0; 1; 0]; [0; 0; 0; 1] ]%float.

(** A library whose ICP answers with a transform holding [x]. *)
Definition lib_icp (x : float) : Open3D :=
  Sym.open3d (quality []) (with_entry x).

Definition scans (tags : list Z) : list Sym.cloud := map scan tags.

Definition eleven : list Z := [0; 1; 2; 3; 4; 5; 6; 7; 8; 9; 10].

(** The gate as the specification words it, with the threshold
    [min(0.02, 0.01 * source_diameter)]. *)
Definition gate_as_specified (source_diameter fitness rmse : float) : bool :=
  (0.3 <? fitness)%float
  && (rmse <? 2 * py_min 0.02 (0.01 * source_diameter))%float.

(** A depth map of one row. *)
Definition depth_row (row : list float) : ndarray := mk_ndarray true [row].

(** Five points in three voxels of edge 0.05. *)
Definition sample_points : list VoxelGrid.Point :=
  [ (0, 0, 0); (0.02, 0.01, 0); (0.03, 0, 0); (0.1, 0.1, 0.1); (-0.01, 0, 0) ]%float.

(** An edge a little above 0.1: the float that follows the float 0.1 by
    one unit in the last place. *)
Definition edge_above_tenth : float := 0x1.999999999999bp-4%float.

(** Three points at 0.1 and one at 0.15 on the first axis. *)
Definition near_boundary : list VoxelGrid.Point :=
  [ (0.1, 0, 0); (0.1, 0, 0); (0.1, 0, 0); (0.15, 0, 0) ]%float.

(** Three points on the first axis whose coordinates and sums are exact in
    binary. *)
Definition dyadic_points : list VoxelGrid.Point :=
  [ (0, 0, 0); (0.375, 0, 0); (0.625, 0, 0) ]%float.

(** A cloud of 1000 points filling a cube of edge 2. *)
Definition block : Sym.cloud := Sym.Scan 0 1000 (2, 2, 2)%float.

(** Zero area on the integer lattice: the cross product of two sides
    vanishes. *)
Definition lattice_zero_area (p q r : Z * Z * Z) : bool :=
  let '(px, py, pz) := p in
  let '(qx, qy, qz) := q in
  let '(rx, ry, rz) := r in
  let '(ux, uy, uz) := (qx - px, qy - py, qz - pz) in
  let '(wx, wy, wz) := (rx - px, ry - py, rz - pz) in
  (uy * wz - uz * wy =? 0) && (uz * wx - ux * wz =? 0)
  && (ux * wy - uy * wx =? 0).

(** A reconstruction with the vertex (1, 0, 0) twice, a triangle twice, and
    a triangle with its three corners on a line. *)
Definition raw_mesh : MeshModel.Mesh (V := Z * Z * Z) :=
  MeshModel.mk_mesh
    [ (0, 0, 0); (1, 0, 0); (0, 1, 0); (1, 0, 0); (2, 0, 0); (0, 0, 1) ]
    [ (0, 1, 2); (3, 5, 2); (0, 1, 4); (0, 1, 2) ]%nat.

(** Mesh routines: the cleanup of [MeshModel], a reconstruction that
    answers [raw_mesh], and a vertex removal that removes none. *)
Definition mesh_lib : Open3DMesh (o3d := lib []) :=
  MeshModel.mesh_library (o3d := lib [])
    (fun _ _ _ _ _ => Ok (raw_mesh, [1; 2; 3; 4; 5; 6]%float))
    (fun m _ => Ok m).

End Run.

(** * Further definitions

    What the properties of the remaining functions speak about. *)

Section RegistrationOutcomes.
Context {np : NumPy} {o3d : Open3D}.

(** At the scale [voxel_size] preprocessing raises nothing and gives no
    cloud for the source or for the target. *)
Definition scale_skipped (source target : PointCloud) (voxel_size : float) : Prop :=
  exists source_down source_fpfh target_down target_fpfh,
    preprocess_point_cloud source voxel_size = Ok (source_down, source_fpfh)
    /\ preprocess_point_cloud target voxel_size = Ok (target_down, target_fpfh)
    /\ (source_down = None \/ target_down = None).

End RegistrationOutcomes.

(** * The whole pipeline: [process_frames_to_mesh] and
      [process_multiple_point_clouds] *)

(** [[f(x) for x in l]] where [f] may raise: the results in order, or the
    first exception. *)
Fixpoint traverse {A B} (f : A -> res B) (l : list A) : res (list B) :=
  match l with
  | [] => Ok []
  | a :: rest =>
      b ← f a;
      bs ← traverse f rest;
      Ok (b :: bs)
  end.

Section WholePipeline.
Context {np : NumPy} {o3d : Open3D} {o3dm : Open3DMesh}.

(** The loop over [zip(frames, depth_maps)] that fills [point_clouds]. *)
Fixpoint collect_point_clouds (pairs : list (ColorImage * ndarray))
    (intrinsic : Intrinsic) (depth_scale depth_trunc : float)
    (point_clouds : list PointCloud) : res (list PointCloud) :=
  match pairs with
  | [] => Ok point_clouds
  | (frame, depth_map) :: rest =>
      pcd ← create_point_cloud frame depth_map intrinsic depth_scale depth_trunc;
      collect_point_clouds rest intrinsic depth_scale depth_trunc
        match pcd with
        | Some pcd =>
            if 0 <? len_points pcd then point_clouds ++ [pcd] else point_clouds
        | None => point_clouds
        end
  end.

Definition process_frames_to_mesh (frames : list ColorImage)
    (depth_maps : list ndarray) (intrinsic : Intrinsic)
    (depth_scale depth_trunc : float) : res (option TriangleMesh) :=
  point_clouds ← collect_point_clouds (zip frames depth_maps) intrinsic
                   depth_scale depth_trunc [];
  match point_clouds with
  | [] => Ok None
  | _ =>
      let diameters := map diameter point_clouds in
      let median_diameter := np_median diameters in
      let voxel_size := (median_diameter * 0.01)%float in
      merged_pcd ← incremental_registration (map Some point_clouds)
                     (Some voxel_size) default_batch_size;
      match merged_pcd with
      | None => Ok None
      | Some merged_pcd =>
          if len_points merged_pcd =? 0 then Ok None
          else create_mesh_from_point_cloud (Some merged_pcd) (Some voxel_size)
      end
  end.

(** [point_cloud_to_mesh.process_multiple_point_clouds]:
    [list(executor.map(partial(generate_mesh_from_point_cloud, depth=depth),
    pcd_list))] gives the results in the order of [pcd_list] and raises the
    first exception in that order; the executor refuses a worker count
    that is not positive. *)
Definition process_multiple_point_clouds (pcd_list : list PointCloud)
    (depth : Z) (max_workers : Z) : res (list TriangleMesh) :=
  if max_workers <=? 0 then Raise ValueError
  else
    traverse
      (fun pcd => PointCloudToMesh.generate_mesh_from_point_cloud pcd depth true)
      pcd_list.

(** The depth map as [create_point_cloud] counts it. *)
Definition as_float32 (depth_map : ndarray) : ndarray :=
  if negb (dtype_is_float32 depth_map) then astype_float32 depth_map
  else depth_map.

End WholePipeline.

(** * [pipeline/main.py]: frame extraction *)

Module Main.

(** What [extract_frames] finds at [video_path]: no file, a file that the
    capture cannot open, or the frames [cap.read()] delivers before it
    reports the end. *)
Inductive video (Frame : Type) : Type :=
| NoFile
| NotOpened
| Stream (frames : list Frame).
Arguments NoFile {Frame}.
Arguments NotOpened {Frame}.
Arguments Stream {Frame} frames.

(** The [while True] loop over [cap.read()], with the local variables
    [frames] and [frame_count]. *)
Fixpoint read_frames {Frame} (skip_frames : Z) (stream : list Frame)
    (frames : list Frame) (frame_count : Z) : res (list Frame) :=
  match stream with
  | [] => Ok frames
  | frame :: rest =>
      r ← py_mod frame_count skip_frames;
      read_frames skip_frames rest
        (if r =? 0 then frames ++ [frame] else frames) (frame_count + 1)
  end.

Definition extract_frames {Frame} (video_path : video Frame) (skip_frames : Z)
  : res (list Frame) :=
  match video_path with
  | NoFile => Ok []
  | NotOpened => Ok []
  | Stream stream => read_frames skip_frames stream [] 0
  end.

Definition default_skip_frames : Z := 10.

End Main.

(** The frames of [stream] whose position, counted from [count], is a
    multiple of [skip]. *)
Fixpoint multiples {Frame} (skip : Z) (stream : list Frame) (count : Z) : list Frame :=
  match stream with
  | [] => []
  | frame :: rest =>
      if count mod skip =? 0 then frame :: multiples skip rest (count + 1)
      else multiples skip rest (count + 1)
  end.

(** * [pipeline/depth_map.py]: depth maps and the image cache *)

Module DepthMap.

(** The world around the module: Pillow and base64 ([jpeg_base64] opens the
    image, converts it to RGB, saves it as JPEG and encodes the bytes), the
    depth-estimation pipeline held in the global [depth_pipe] ([None] when
    its initialisation failed; a call covers the inference, the read of
    ["predicted_depth"] and the conversion to an array), [np.save], and
    the file system. *)
Class World : Type := {
  DepthArray : Type;
  jpeg_base64 : string -> res string;
  depth_pipe : option (string -> res DepthArray);
  np_save : string -> DepthArray -> res unit;
  mkdir : string -> res unit;
  (** [sorted(list(input_dir.glob("*.jpg")) + list(input_dir.glob("*.png")))] *)
  sorted_images : string -> list string;
  (** [output_dir / f"{image_path.stem}_depth.npy"] *)
  depth_path : string -> string -> string
}.

(** The global [image_cache] and the depth maps written so far. *)
Record state {w : World} : Type := mk_state {
  image_cache : gmap string string;
  saved : list (string * DepthArray)
}.
Arguments mk_state {w} image_cache saved.

Section DepthMap.
Context {w : World}.

Definition convert_image_to_data_url (image_path : string) (st : state)
  : option string * state :=
  match image_cache st !! image_path with
  | Some data_url => (Some data_url, st)
  | None =>
      match jpeg_base64 image_path with
      | Ok base64_str =>
          let data_url := ("data:image/jpeg;base64," ++ base64_str)%string in
          (Some data_url,
           mk_state (<[image_path := data_url]> (image_cache st)) (saved st))
      | Raise _ => (None, st)
      end
  end.

Definition generate_depth_map (image_path : string) (st : state)
  : option DepthArray * state :=
  match depth_pipe with
  | None => (None, st)
  | Some pipe =>
      let '(data_url, st) := convert_image_to_data_url image_path st in
      match data_url with
      | None => (None, st)
      | Some data_url =>
          match pipe data_url with
          | Ok depth_map => (Some depth_map, st)
          | Raise _ => (None, st)
          end
      end
  end.

(** One turn of the loop over [image_paths], with its [try/except]: an
    exception of [np.save] is caught after the depth map was appended. *)
Definition process_image (output_dir : option string) (image_path : string)
    (depth_maps : list (option DepthArray)) (st : state)
  : list (option DepthArray) * state :=
  let '(depth_map, st) := generate_depth_map image_path st in
  match depth_map with
  | Some depth_map =>
      let depth_maps := depth_maps ++ [Some depth_map] in
      match output_dir with
      | Some output_dir =>
          let output_path := depth_path output_dir image_path in
          match np_save output_path depth_map with
          | Ok _ =>
              (depth_maps,
               mk_state (image_cache st) (saved st ++ [(output_path, depth_map)]))
          | Raise _ => (depth_maps ++ [None], st)
          end
      | None => (depth_maps, st)
      end
  | None => (depth_maps ++ [None], st)
  end.

Fixpoint process_images (output_dir : option string) (image_paths : list string)
    (depth_maps : list (option DepthArray)) (st : state)
  : list (option DepthArray) * state :=
  match image_paths with
  | [] => (depth_maps, st)
  | image_path :: rest =>
      let '(depth_maps, st) := process_image output_dir image_path depth_maps st in
      process_images output_dir rest depth_maps st
  end.

(** [if output_dir:] on the argument: [None] and the empty string are
    false. *)
Definition given (output_dir : option string) : option string :=
  match output_dir with
  | Some EmptyString => None
  | other => other
  end.

Definition process_directory (input_dir : string) (output_dir : option string)
    (st : state) : res (list (option DepthArray) * state) :=
  match depth_pipe with
  | None => Ok ([], st)
  | Some _ =>
      _ ← match given output_dir with
          | Some output_dir => mkdir output_dir
          | None => Ok tt
          end;
      let image_paths := sorted_images input_dir in
      match image_paths with
      | [] => Ok ([], st)
      | _ => Ok (process_images (given output_dir) image_paths [] st)
      end
  end.

Definition clear_cache (st : state) : state := mk_state ∅ (saved st).

End DepthMap.
End DepthMap.

(** * [pipeline/registration.py]: the masks of the flow and the batches of
      [generate] *)

(** [range(start, stop, step)] for a positive [step]. *)
Fixpoint range_from (n : nat) (start step : Z) : list Z :=
  match n with
  | O => []
  | S n' => start :: range_from n' (start + step) step
  end.

Definition py_range (start stop step : Z) : list Z :=
  range_from (Z.to_nat ((stop - start + step - 1) / step)) start step.

(** [l[i:j]] for bounds that are not negative. *)
Definition py_slice {A} (l : list A) (i j : Z) : list A :=
  take (Z.to_nat j - Z.to_nat i) (drop (Z.to_nat i) l).

Module PointFlow.

(** [mask = torch.zeros(n); mask[i:j] = 1] *)
Definition ones_between (n : nat) (i j : Z) : list float :=
  take (Z.to_nat i) (replicate n 0%float)
  ++ replicate (Nat.min (Z.to_nat j) n - Z.to_nat i) 1%float
  ++ drop (Z.to_nat j) (replicate n 0%float).

(** The mask [ConditionalInvertibleFlow.__init__] gives to its layer [i]:
    ones on [[:input_dim // 2]] for an even [i], on [[input_dim // 2:]] for
    an odd one. *)
Definition coupling_mask (input_dim i : Z) : list float :=
  if i mod 2 =? 0
  then ones_between (Z.to_nat input_dim) 0 (input_dim / 2)
  else ones_between (Z.to_nat input_dim) (input_dim / 2) input_dim.

(** The masks of the layers, in the order of [self.layers]. *)
Definition layer_masks (input_dim num_layers : Z) : list (list float) :=
  map (coupling_mask input_dim) (py_range 0 num_layers 1).

Section Generate.
(** A tensor of shape (batch, points, 3) is a list of rows of points. *)
Context {Point Latent : Type}.

(** [self.sample_prior(batch_size)] *)
Variable sample_prior : Z -> res Latent.

(** [torch.randn(batch_size, num_points, 3, device=...)]: the base points
    that are drawn, or the exception of the library. *)
Variable randn : Z -> Z -> res (list (list Point)).

(** [self.flow(batch_points, expanded_latent, reverse=True)]: the flow
    applied in reverse to a slice and to the latent code expanded to the
    length of the slice. *)
Variable flow_reverse :
  list (list Point) -> Latent -> Z -> res (list (list Point)).

(** The exception [torch.cat] raises when it refuses its tensors. *)
Variable cat_refuses : list (list (list Point)) -> exn.

(** Two tensors joined along the points, row by row; none when they have
    different numbers of rows. *)
Fixpoint cat_rows (a b : list (list Point)) : option (list (list Point)) :=
  match a, b with
  | [], [] => Some []
  | x :: a', y :: b' => rest ← cat_rows a' b'; Some ((x ++ y) :: rest)
  | _, _ => None
  end.

Fixpoint cat_all (first : list (list Point)) (others : list (list (list Point)))
  : option (list (list Point)) :=
  match others with
  | [] => Some first
  | t :: rest => joined ← cat_rows first t; cat_all joined rest
  end.

(** [torch.cat(tensors, dim=1)]: an empty list of tensors and tensors with
    different numbers of rows are refused. *)
Definition torch_cat (tensors : list (list (list Point)))
  : res (list (list Point)) :=
  match tensors with
  | [] => Raise (cat_refuses tensors)
  | first :: others =>
      match cat_all first others with
      | Some joined => Ok joined
      | None => Raise (cat_refuses tensors)
      end
  end.

(** The loop [for i in range(0, num_points, 1000)] of [generate]. *)
Fixpoint generate_batches (starts : list Z) (num_points : Z)
    (base_points : list (list Point)) (latent_code : Latent)
    (generated_points : list (list (list Point)))
  : res (list (list (list Point))) :=
  match starts with
  | [] => Ok generated_points
  | i :: rest =>
      let end_idx := Z.min (i + 1000) num_points in
      let batch_points := map (fun row => py_slice row i end_idx) base_points in
      transformed_points ← flow_reverse batch_points latent_code (end_idx - i);
      generate_batches rest num_points base_points latent_code
        (generated_points ++ [transformed_points])
  end.

(** [PointFlowModel.generate] *)
Definition generate (batch_size num_points : Z) (latent_code : option Latent)
  : res (list (list Point)) :=
  latent_code ←
    match latent_code with
    | None => sample_prior batch_size
    | Some latent_code => Ok latent_code
    end;
  base_points ← randn batch_size num_points;
  generated_points ← generate_batches (py_range 0 num_points 1000) num_points
                        base_points latent_code [];
  torch_cat generated_points.

End Generate.
End PointFlow.

(** The flow transforms each point on its own, by a map that depends on
    the row of the batch (and so on the latent code of that row). *)
Definition pointwise {Point Latent : Type}
    (flow_reverse : list (list Point) -> Latent -> Z -> res (list (list Point)))
    (latent_code : Latent) (g : nat -> Point -> Point) : Prop :=
  forall t k, flow_reverse t latent_code k = Ok (imap (fun b row => map (g b) row) t).

(** * Further runs on the stand-in *)

Module MoreRuns.

(** A frame of five points: too few for any scale. *)
Definition sparse_scan : Sym.cloud := Sym.Scan 1 5 (6, 8, 0)%float.

(** A world in which the image of path "full.jpg" cannot be saved, the
    image "bad.jpg" cannot be read, and the pipeline answers with the
    length of the data URL. *)
Definition world (content : string) : DepthMap.World := {|
  DepthMap.DepthArray := nat;
  DepthMap.jpeg_base64 := fun image_path =>
    if String.eqb image_path "bad.jpg" then Raise RuntimeError
    else Ok (content ++ image_path)%string;
  DepthMap.depth_pipe := Some (fun data_url => Ok (String.length data_url));
  DepthMap.np_save := fun output_path _ =>
    if String.eqb output_path "out/full.jpg_depth.npy" then Raise RuntimeError
    else Ok tt;
  DepthMap.mkdir := fun _ => Ok tt;
  DepthMap.sorted_images := fun input_dir =>
    if String.eqb input_dir "one" then ["full.jpg"]
    else ["a.jpg"; "full.jpg"; "z.png"];
  DepthMap.depth_path := fun output_dir image_path =>
    (output_dir ++ "/" ++ image_path ++ "_depth.npy")%string
|}.

Definition fresh (content : string) : DepthMap.state (w := world content) :=
  DepthMap.mk_state (w := world content) ∅ [].

(** A row of 2500 points, more than two batches of [generate]. *)
Definition row_from (start : Z) : list Z :=
  map (fun k => start + Z.of_nat k) (seq 0 (Z.to_nat 2500)).

(** A draw of base points: row [b] counts up from [5000 * b]. *)
Definition counting_randn (batch_size num_points : Z) : res (list (list Z)) :=
  if (batch_size <? 0) || (num_points <? 0) then Raise RuntimeError
  else Ok (map (fun b => map (fun k => 5000 * Z.of_nat b + Z.of_nat k)
                           (seq 0 (Z.to_nat num_points)))
             (seq 0 (Z.to_nat batch_size))).

(** A flow that moves every point of row [b] by [b + 1]. *)
Definition shift_flow (t : list (list Z)) (latent_code : unit) (k : Z)
  : res (list (list Z)) :=
  Ok (imap (fun b row => map (fun p => p + Z.of_nat b + 1) row) t).

End MoreRuns.

(** * Properties of the pipeline *)

Lemma bind_Ok {A B} (a : A) (f : A -> res B) : (Ok a ≫= f) = f a.
Proof. reflexivity. Qed.

Lemma bind_Raise {A B} (e : exn) (f : A -> res B) : (Raise e ≫= f) = Raise e.
Proof. reflexivity. Qed.

(** In a goal that assumes a computation returned, split on the library
    call [c]: name its result [x], keep the equation as [H], and drop the
    case where [c] raised. *)
Ltac returned c x H :=
  destruct c as [x|?] eqn:H; rewrite ?bind_Ok, ?bind_Raise; [|discriminate].

Section PipelineFacts.
Context {np : NumPy} {o3d : Open3D}.

(** ** Point-cloud construction *)

Lemma count_valid_concat depth_scale depth_trunc (depth_map : ndarray) :
  count_valid depth_scale depth_trunc depth_map
  = Z.of_nat (length (List.filter (depth_valid depth_scale depth_trunc)
                        (concat (samples depth_map)))).
Proof.
  unfold count_valid. induction (samples depth_map) as [|row rows IH]; simpl.
  - reflexivity.
  - rewrite IH, List.filter_app, length_app. lia.
Qed.

(** C6.  A depth sample counts as valid exactly when it is strictly above
    zero and strictly below [depth_trunc * depth_scale] (the product as a
    float32, like the samples); the number the gate compares with 100 is
    the number of such samples of the float32 depth map; with fewer than
    100 of them [create_point_cloud] returns [None] without calling the
    library, and with 100 or more it never returns [None]: it raises what
    the library raised or returns the cloud the library built. *)
Theorem create_point_cloud_depth_gate
    (color_image : ColorImage) (depth_map : ndarray) (intrinsic : Intrinsic)
    (depth_scale depth_trunc : float) :
  let depth32 :=
    if negb (dtype_is_float32 depth_map) then astype_float32 depth_map
    else depth_map in
  (forall d, depth_valid depth_scale depth_trunc d = true
             <-> (0 <? d)%float = true
                 /\ (d <? np_float32 (depth_trunc * depth_scale))%float = true)
  /\ count_valid depth_scale depth_trunc depth32
     = Z.of_nat (length (List.filter (depth_valid depth_scale depth_trunc)
                           (concat (samples depth32))))
  /\ (count_valid depth_scale depth_trunc depth32 < 100 ->
      create_point_cloud color_image depth_map intrinsic depth_scale depth_trunc
      = Ok None)
  /\ (100 <= count_valid depth_scale depth_trunc depth32 ->
      create_point_cloud color_image depth_map intrinsic depth_scale depth_trunc
      <> Ok None).
Proof.
  intros depth32. split; [|split; [|split]].
  - intros d. unfold depth_valid. apply andb_true_iff.
  - apply count_valid_concat.
  - intros Hlt. unfold create_point_cloud. fold depth32.
    apply Z.ltb_lt in Hlt. rewrite Hlt. reflexivity.
  - intros Hge. unfold create_point_cloud. fold depth32.
    apply Z.ltb_ge in Hge. rewrite Hge.
    destruct (create_from_color_and_depth _ _ _ _ _) as [rgbd|e]; simpl; [|discriminate].
    destruct (create_from_rgbd_image rgbd intrinsic) as [pcd|e]; simpl; [|discriminate].
    destruct (0 <? len_points pcd); [|discriminate].
    destruct (py_int _) as [q|e]; simpl; [|discriminate].
    destruct (remove_statistical_outlier _ _ _); simpl; discriminate.
Qed.

(** The cloud [preprocess_point_cloud] returns is the cloud the library
    downsampled, of at least 10 points, with normals estimated. *)
Lemma preprocess_point_cloud_downsampled pcd voxel_size pcd_down pcd_fpfh :
  preprocess_point_cloud pcd voxel_size = Ok (Some pcd_down, pcd_fpfh) ->
  exists raw,
    voxel_down_sample pcd voxel_size = Ok raw
    /\ 10 <= len_points raw
    /\ estimate_normals raw
         (mk_hybrid (voxel_size * 2)%float (Z.min 30 (len_points raw)))
       = Ok pcd_down.
Proof.
  unfold preprocess_point_cloud.
  destruct (len_points pcd =? 0); [discriminate|].
  returned (voxel_down_sample pcd voxel_size) raw Hraw.
  destruct (len_points raw <? 10) eqn:Hlen; [discriminate|].
  apply Z.ltb_ge in Hlen.
  returned (estimate_normals raw
              (mk_hybrid (voxel_size * 2)%float (Z.min 30 (len_points raw))))
           down Hnormals.
  returned (compute_fpfh_feature down
              (mk_hybrid (voxel_size * 5)%float (Z.min 100 (len_points down))))
           fpfh Hfpfh.
  intros [= <- _]. exists raw. repeat split; assumption.
Qed.

(** ** Registration quality *)

Lemma evaluate_registration_success threshold source target t :
  getitem (evaluate_registration (Some source) (Some target) t threshold) "success"
  = Ok (PyBool (judged threshold source target t)).
Proof.
  unfold evaluate_registration, judged, adaptive_threshold, getitem.
  destruct (o3d_evaluate_registration _ _ _ _) as [ev|e]; simpl; reflexivity.
Qed.

Lemma fuse_frame_judged voxel_size batch_size i current_pcd st t :
  multi_scale_icp (Some current_pcd) (Some (merged st))
    (Some (scale_schedule voxel_size)) = Ok (Some t) ->
  fuse_frame voxel_size batch_size i current_pcd st
  = if judged (voxel_size * 2)%float current_pcd (merged st) t
    then merge_frame voxel_size batch_size i current_pcd t st
    else Ok st.
Proof.
  intros Hicp. unfold fuse_frame. rewrite Hicp, bind_Ok.
  rewrite evaluate_registration_success, bind_Ok. reflexivity.
Qed.

Lemma merge_frame_records voxel_size batch_size i current_pcd t st st' :
  merge_frame voxel_size batch_size i current_pcd t st = Ok st' ->
  transformations st' = transformations st ++ [t].
Proof.
  unfold merge_frame.
  returned (transform current_pcd t) moved Hmoved.
  returned (py_mod i batch_size) r Hr.
  destruct (r =? 0).
  - returned (voxel_down_sample (pcd_iadd (merged st) moved) voxel_size) down Hdown.
    returned (remove_statistical_outlier down 20 2.0%float) clean Hclean.
    intros [= <-]. reflexivity.
  - intros [= <-]. reflexivity.
Qed.

Lemma append_changes_list {A} (l : list A) (x : A) : l ++ [x] <> l.
Proof.
  intros H. apply (f_equal length) in H. rewrite length_app in H. simpl in H. lia.
Qed.

(** C1 (amended).  In the fusion loop the adaptive threshold is
    [min(2 * voxel_size, 0.01 * source_diameter)]: the loop passes
    [voxel_size * 2] for the parameter whose default is 0.02.  The judgment
    is [True] exactly when the library evaluation at that threshold returns
    and [fitness > 0.3] and [inlier_rmse < 2 * threshold]; a frame that
    multi-scale registration gave a transform is merged and its transform
    recorded if and only if that judgment is [True], and otherwise the
    state is returned as it was. *)
Theorem fusion_gate_decides_append voxel_size batch_size i current_pcd st t :
  multi_scale_icp (Some current_pcd) (Some (merged st))
    (Some (scale_schedule voxel_size)) = Ok (Some t) ->
  let adaptive := py_min (voxel_size * 2)%float (diameter current_pcd * 0.01)%float in
  let passes :=
    match o3d_evaluate_registration current_pcd (merged st) adaptive t with
    | Ok evaluation =>
        (0.3 <? fitness evaluation)%float
        && (inlier_rmse evaluation <? adaptive * 2)%float
    | Raise _ => false
    end in
  getitem (evaluate_registration (Some current_pcd) (Some (merged st)) t
             (voxel_size * 2)%float) "success" = Ok (PyBool passes)
  /\ fuse_frame voxel_size batch_size i current_pcd st
     = (if passes then merge_frame voxel_size batch_size i current_pcd t st
        else Ok st)
  /\ forall st', fuse_frame voxel_size batch_size i current_pcd st = Ok st' ->
       (transformations st' = transformations st ++ [t] <-> passes = true).
Proof.
  intros Hicp adaptive passes.
  assert (Hj : judged (voxel_size * 2)%float current_pcd (merged st) t = passes)
    by reflexivity.
  pose proof (fuse_frame_judged voxel_size batch_size i current_pcd st t Hicp) as Hf.
  rewrite Hj in Hf.
  split; [|split].
  - rewrite evaluate_registration_success, Hj. reflexivity.
  - exact Hf.
  - intros st' Hst'. rewrite Hf in Hst'. destruct passes.
    + split; [reflexivity|]. intros _.
      eapply merge_frame_records; eassumption.
    + injection Hst' as <-. split; [|discriminate].
      intros H. symmetry in H. apply append_changes_list in H. contradiction.
Qed.

(** C2.  A frame for which multi-scale registration returns no transform,
    or whose quality judgment is false, leaves the state of the loop (the
    merged model and the recorded transforms) exactly as it was, and the
    loop goes on with the frames that follow. *)
Theorem failed_frame_is_skipped voxel_size batch_size i current_pcd rest st :
  (multi_scale_icp (Some current_pcd) (Some (merged st))
     (Some (scale_schedule voxel_size)) = Ok None
   \/ exists t success,
        multi_scale_icp (Some current_pcd) (Some (merged st))
          (Some (scale_schedule voxel_size)) = Ok (Some t)
        /\ getitem (evaluate_registration (Some current_pcd) (Some (merged st)) t
                      (voxel_size * 2)%float) "success" = Ok success
        /\ truthy success = false) ->
  fuse_frame voxel_size batch_size i current_pcd st = Ok st
  /\ fuse_loop voxel_size batch_size ((i, current_pcd) :: rest) st
     = fuse_loop voxel_size batch_size rest st.
Proof.
  intros Hfail.
  assert (Hskip : fuse_frame voxel_size batch_size i current_pcd st = Ok st).
  { unfold fuse_frame. destruct Hfail as [Hnone | (t & success & Hicp & Hget & Hfalse)].
    - rewrite Hnone. reflexivity.
    - rewrite Hicp, bind_Ok, Hget, bind_Ok, Hfalse. reflexivity. }
  split; [exact Hskip|].
  simpl. rewrite Hskip. reflexivity.
Qed.

(** C4 (amended).  A turn of the fusion loop that returns either leaves the
    state as it was, or merges the frame and records its transform; in the
    second case the merged model is consolidated (downsampled at
    [voxel_size], then statistical outlier removal with 20 neighbours and
    ratio 2.0) exactly when the position [i] of the frame in the valid
    sequence is a multiple of [batch_size].  The number of frames fused so
    far plays no part. *)
Theorem consolidation_follows_position voxel_size batch_size i current_pcd st st' :
  fuse_frame voxel_size batch_size i current_pcd st = Ok st' ->
  st' = st
  \/ exists t moved,
       transform current_pcd t = Ok moved
       /\ transformations st' = transformations st ++ [t]
       /\ batch_size <> 0
       /\ if i mod batch_size =? 0
          then exists down,
                 voxel_down_sample (pcd_iadd (merged st) moved) voxel_size = Ok down
                 /\ remove_statistical_outlier down 20 2.0%float = Ok (merged st')
          else merged st' = pcd_iadd (merged st) moved.
Proof.
  unfold fuse_frame.
  destruct (multi_scale_icp _ _ _) as [[t|]|e]; rewrite ?bind_Ok, ?bind_Raise;
    [| intros [= <-]; left; reflexivity | discriminate].
  match goal with |- (?c ≫= _) = _ -> _ => returned c success Hsuccess end.
  destruct (truthy success); [| intros [= <-]; left; reflexivity].
  unfold merge_frame, py_mod.
  returned (transform current_pcd t) moved Hmoved.
  destruct (batch_size =? 0) eqn:Hbs; rewrite ?bind_Ok, ?bind_Raise; [discriminate|].
  apply Z.eqb_neq in Hbs.
  destruct (i mod batch_size =? 0).
  - returned (voxel_down_sample (pcd_iadd (merged st) moved) voxel_size) down Hdown.
    returned (remove_statistical_outlier down 20 2.0%float) clean Hclean.
    intros [= <-]. right. exists t, moved. simpl.
    repeat split; try assumption. exists down. split; assumption.
  - intros [= <-]. right. exists t, moved. simpl. repeat split; assumption.
Qed.

(** ** Multi-scale registration *)

Lemma identity4_no_nan : any_isnan identity4 = false.
Proof. reflexivity. Qed.

(** C3 (amended).  For two clouds that are not [None], [multi_scale_icp]
    never returns [None]; it raises only what the loop over the scales
    raised; and the transform it returns contains no NaN: it is the
    transform the scales computed when that one has no NaN entry, and the
    identity otherwise.  Infinite entries are not looked at. *)
Theorem multi_scale_icp_nan_guard (source target : PointCloud)
    (voxel_sizes : option (list float)) :
  match multi_scale_icp (Some source) (Some target) voxel_sizes with
  | Ok (Some t) =>
      any_isnan t = false
      /\ exists computed,
           icp_scales source target
             (enumerate_from 0 (chosen_scales source voxel_sizes)) identity4
           = Ok computed
           /\ t = if any_isnan computed then identity4 else computed
  | Ok None => False
  | Raise e =>
      icp_scales source target
        (enumerate_from 0 (chosen_scales source voxel_sizes)) identity4 = Raise e
  end.
Proof.
  unfold multi_scale_icp. fold (chosen_scales source voxel_sizes).
  destruct (icp_scales _ _ _ _) as [computed|e]; rewrite ?bind_Ok, ?bind_Raise;
    [|reflexivity].
  destruct (any_isnan computed) eqn:Hnan; simpl.
  - split; [apply identity4_no_nan|]. exists computed. rewrite Hnan. split; reflexivity.
  - split; [assumption|]. exists computed. rewrite Hnan. split; reflexivity.
Qed.

(** ** Loop closure *)

Lemma loop_closure_short_sequence valid_pcd_list voxel_size st :
  (Z.of_nat (length valid_pcd_list) <= 10) ->
  loop_closure valid_pcd_list voxel_size st = (merged st, None).
Proof.
  intros Hlen. unfold loop_closure.
  apply Z.ltb_ge in Hlen. rewrite Hlen. reflexivity.
Qed.

Lemma loop_closure_gate_not_passed valid_pcd_list voxel_size st :
  (loop_closure_gate valid_pcd_list voxel_size st = Ok None
   \/ exists e, loop_closure_gate valid_pcd_list voxel_size st = Raise e) ->
  fst (loop_closure valid_pcd_list voxel_size st) = merged st.
Proof.
  intros Hgate. unfold loop_closure.
  destruct (10 <? Z.of_nat (length valid_pcd_list)); [|reflexivity].
  destruct Hgate as [-> | [e ->]]; reflexivity.
Qed.

Lemma rebuild_cut_short transformations error_root frames :
  forall (start : Z) (merged : PointCloud),
    0 <= start <= Z.of_nat (length transformations) ->
    Z.of_nat (length transformations) < start + Z.of_nat (length frames) ->
    exists e,
      snd (rebuild transformations error_root (enumerate_from start frames) merged)
      = Some e.
Proof.
  induction frames as [|current_pcd rest IH]; intros start merged Hstart Hlen.
  - simpl in Hlen. lia.
  - simpl. unfold py_index.
    destruct (transformations !! Z.to_nat start) as [t|] eqn:Hlookup;
      rewrite ?bind_Ok, ?bind_Raise.
    + destruct (transform current_pcd _) as [moved|e]; [|exists e; reflexivity].
      apply lookup_lt_Some in Hlookup.
      apply IH; [lia|]. simpl length in Hlen. lia.
    + exists IndexError. reflexivity.
Qed.

(** C5 (the code departs from the claim).  When the loop-closure gate
    passes on a sequence of which the fusion loop skipped at least one
    frame, the rebuild is cut short by an exception, which the handler
    catches: [merged] is then what the rebuild had assembled from the
    first cloud up to that point, not the model of the fusion loop. *)
Theorem loop_closure_rebuild_cut_short valid_pcd_list voxel_size st error_root :
  10 < Z.of_nat (length valid_pcd_list) ->
  loop_closure_gate valid_pcd_list voxel_size st = Ok (Some error_root) ->
  (1 <= length (transformations st) < length valid_pcd_list)%nat ->
  exists first_pcd rest e,
    valid_pcd_list = first_pcd :: rest
    /\ loop_closure valid_pcd_list voxel_size st
       = rebuild (transformations st) error_root (enumerate_from 1 rest) first_pcd
    /\ snd (loop_closure valid_pcd_list voxel_size st) = Some e.
Proof.
  intros Hlong Hgate Hskipped. unfold loop_closure.
  apply Z.ltb_lt in Hlong. rewrite Hlong, Hgate.
  destruct valid_pcd_list as [|first_pcd rest]; [simpl in Hskipped; lia|].
  destruct (rebuild_cut_short (transformations st) error_root rest 1 first_pcd)
    as [e He]; [lia | simpl length in Hskipped; lia |].
  exists first_pcd, rest, e. repeat split. exact He.
Qed.

(** ** Short sequences *)

(** C8.  For a sequence of exactly one element fusion returns that element
    itself, with no cleanup applied; for the empty sequence it returns
    [None]. *)
Theorem incremental_registration_short_sequences
    (pcd : PointCloud) (voxel_size : option float) (batch_size : Z) :
  incremental_registration [Some pcd] voxel_size batch_size = Ok (Some pcd)
  /\ incremental_registration [] voxel_size batch_size = Ok None.
Proof. split; reflexivity. Qed.

(** ** The result of the evaluation *)

(** C9 (the code departs from the claim).  When the source or the target is
    [None], the dictionary [evaluate_registration] returns has no "success"
    entry, and reading it raises a key error; on the two other return paths
    the entry is there. *)
Theorem evaluate_registration_none_lacks_success
    (source target : option PointCloud) (t : Transform) (threshold : float) :
  (source = None \/ target = None ->
   evaluate_registration source target t threshold !! "success" = None
   /\ getitem (evaluate_registration source target t threshold) "success"
      = Raise KeyError)
  /\ (source <> None -> target <> None ->
      exists b, evaluate_registration source target t threshold !! "success"
                = Some (PyBool b)).
Proof.
  split.
  - intros Hnone. unfold getitem.
    destruct source, target; destruct Hnone as [H|H]; try discriminate;
      split; reflexivity.
  - intros Hs Ht. destruct source as [source|]; [|contradiction].
    destruct target as [target|]; [|contradiction].
    exists (judged threshold source target t).
    pose proof (evaluate_registration_success threshold source target t) as H.
    unfold getitem in H.
    destruct (evaluate_registration _ _ _ _ !! "success"); congruence.
Qed.

End PipelineFacts.

(** * Voxel downsampling *)

Section FloatDivision.

Lemma div_eucl_exact (a b : Z) : 0 < b -> Z.div_eucl (a * b) b = (a, 0).
Proof.
  intros Hb. pose proof (Z.div_mul a b ltac:(lia)) as Hq.
  pose proof (Z.mod_mul a b ltac:(lia)) as Hr.
  unfold Z.div, Z.modulo in Hq, Hr.
  destruct (Z.div_eucl (a * b) b) as [q r]. simpl in *. congruence.
Qed.

(** Dividing a binary64 number by one is exact: the quotient of the
    mantissas has no remainder, and the bit the division makes room for is
    shifted back out. *)
Lemma SFdiv_one_finite (s : bool) (m : positive) (e : Z) :
  bounded 53 1024 m e = true ->
  SFdiv 53 1024 (S754_finite s m e) (S754_finite false 4503599627370496 (-52))
  = S754_finite s m e.
Proof.
  unfold bounded, canonical_mantissa. intros Hb.
  apply andb_prop in Hb as [Hc He]. apply Z.eqb_eq in Hc. apply Z.leb_le in He.
  set (d := Z.pos (digits2_pos m)) in *.
  assert (Hd : 0 < d) by (unfold d; lia).
  unfold fexp, emin in Hc.
  unfold SFdiv, SFdiv_core_binary.
  change (Zdigits2 (Z.pos m)) with d.
  change (Zdigits2 4503599627370496) with 53.
  destruct (Z_lt_le_dec (-1074) e) as [Hnormal|Hsub].
  - assert (He' : Z.min (fexp 53 1024 (d + e - (53 + -52))) (e - -52) = e - 1).
    { unfold fexp, emin. lia. }
    rewrite He'.
    replace (e - -52 - (e - 1)) with 53 by lia.
    rewrite Z.shiftl_mul_pow2 by lia.
    replace (Z.pos m * 2 ^ 53) with (Z.pos m~0 * 4503599627370496) by lia.
    rewrite div_eucl_exact by lia.
    change (new_location 4503599627370496 0) with loc_Exact.
    unfold binary_round_aux, shr_fexp.
    change (Zdigits2 (Z.pos m~0)) with (Z.pos (Pos.succ (digits2_pos m))).
    rewrite Pos2Z.inj_succ. fold d.
    replace (fexp 53 1024 (Z.succ d + (e - 1)) - (e - 1)) with 1
      by (unfold fexp, emin; lia).
    cbn [shr shr_record_of_loc SpecFloat.iter_pos shr_1 orb shr_m loc_of_shr_record
         round_nearest_even].
    change (Zdigits2 (Z.pos m)) with d.
    replace (fexp 53 1024 (d + (e - 1 + 1)) - (e - 1 + 1)) with 0
      by (unfold fexp, emin; lia).
    cbn [shr shr_record_of_loc shr_m].
    replace (e - 1 + 1) with e by lia.
    destruct (Z.leb_spec e (1024 - 53)); [|lia].
    destruct s; reflexivity.
  - assert (He' : Z.min (fexp 53 1024 (d + e - (53 + -52))) (e - -52) = e).
    { unfold fexp, emin. lia. }
    rewrite He'.
    replace (e - -52 - e) with 52 by lia.
    rewrite Z.shiftl_mul_pow2 by lia.
    change (2 ^ 52) with 4503599627370496.
    rewrite div_eucl_exact by lia.
    change (new_location 4503599627370496 0) with loc_Exact.
    unfold binary_round_aux, shr_fexp.
    change (Zdigits2 (Z.pos m)) with d.
    replace (fexp 53 1024 (d + e) - e) with 0 by (unfold fexp, emin; lia).
    cbn [shr shr_record_of_loc shr_m loc_of_shr_record round_nearest_even].
    change (Zdigits2 (Z.pos m)) with d.
    replace (fexp 53 1024 (d + e) - e) with 0 by (unfold fexp, emin; lia).
    cbn [shr shr_record_of_loc shr_m].
    destruct (Z.leb_spec e (1024 - 53)); [|lia].
    destruct s; reflexivity.
Qed.

Lemma float_div_one (x : float) : (x / 1)%float = x.
Proof.
  apply Prim2SF_inj. rewrite div_spec.
  change (Prim2SF 1) with (S754_finite false 4503599627370496 (-52)).
  pose proof (Prim2SF_valid x) as Hv.
  destruct (Prim2SF x) as [s|s| |s m e]; try (destruct s; reflexivity); [reflexivity|].
  apply SFdiv_one_finite. exact Hv.
Qed.

End FloatDivision.

Section VoxelGridFacts.
Import VoxelGrid.
Variable anchor : list Point -> float -> Point.

Lemma add_point_fresh (o : Point) (v : float) (p : Point) (buckets : list Bucket) :
  voxel_of o v p ∉ map key buckets ->
  add_point o v p buckets = buckets ++ [mk_bucket (voxel_of o v p) p 1].
Proof.
  induction buckets as [|b rest IH]; intros Hfresh; simpl.
  - reflexivity.
  - simpl in Hfresh. apply not_elem_of_cons in Hfresh as [Hne Hrest].
    destruct (decide (key b = voxel_of o v p)) as [Hkey|Hkey]; [congruence|].
    rewrite IH by assumption. reflexivity.
Qed.

(** A point that falls into an occupied voxel opens no bucket. *)
Lemma add_point_known (o : Point) (v : float) (p : Point) (buckets : list Bucket) :
  voxel_of o v p ∈ map key buckets ->
  map key (add_point o v p buckets) = map key buckets.
Proof.
  induction buckets as [|b rest IH]; intros Hin; simpl.
  - inversion Hin.
  - destruct (decide (key b = voxel_of o v p)) as [Hkey|Hkey]; [reflexivity|].
    simpl. rewrite IH; [reflexivity|].
    simpl in Hin. apply elem_of_cons in Hin as [Heq|Hin]; [congruence | assumption].
Qed.

Lemma centroid_single (k : Key) (p : Point) : centroid (mk_bucket k p 1) = p.
Proof.
  destruct p as [[x y] z]. unfold centroid, point_div. simpl.
  change (py_float 1) with 1%float. rewrite !float_div_one. reflexivity.
Qed.

(** Points in pairwise different voxels, none of them occupied, open one
    bucket each, in their order. *)
Lemma fold_add_distinct (o : Point) (v : float) (points : list Point)
    (buckets : list Bucket) :
  NoDup (map key buckets ++ map (voxel_of o v) points) ->
  fold_left (fun bs p => add_point o v p bs) points buckets
  = buckets ++ map (fun p => mk_bucket (voxel_of o v p) p 1) points.
Proof.
  revert buckets. induction points as [|p rest IH]; intros buckets Hnd; simpl.
  - rewrite app_nil_r. reflexivity.
  - simpl in Hnd. apply NoDup_app in Hnd as (Hb & Hdisj & Hp).
    apply NoDup_cons in Hp as [Hp Hrest].
    assert (Hfresh : voxel_of o v p ∉ map key buckets).
    { intros Hin. apply (Hdisj _ Hin). left. }
    rewrite add_point_fresh by assumption.
    rewrite IH.
    + rewrite <- app_assoc. reflexivity.
    + rewrite map_app. simpl. rewrite <- app_assoc. simpl.
      apply NoDup_app. split; [assumption|]. split.
      * intros k Hk Hk'. apply elem_of_cons in Hk' as [->|Hk']; [contradiction|].
        apply (Hdisj _ Hk). right. assumption.
      * apply NoDup_cons. split; assumption.
Qed.

(** There are at most as many buckets as points, and as many only when the
    points lie in pairwise different voxels that were not occupied. *)
Lemma fold_add_length (o : Point) (v : float) (points : list Point) :
  forall buckets : list Bucket,
    NoDup (map key buckets) ->
    let filled := fold_left (fun bs p => add_point o v p bs) points buckets in
    (length filled <= length buckets + length points)%nat
    /\ (length filled = (length buckets + length points)%nat ->
        NoDup (map key buckets ++ map (voxel_of o v) points)).
Proof.
  induction points as [|p rest IH]; intros buckets Hnd; simpl.
  - split; [lia|]. intros _. rewrite app_nil_r. assumption.
  - destruct (decide (voxel_of o v p ∈ map key buckets)) as [Hin|Hout].
    + pose proof (add_point_known o v p buckets Hin) as Hkeys.
      assert (Hlen : length (add_point o v p buckets) = length buckets).
      { rewrite <- (length_map key), Hkeys, length_map. reflexivity. }
      destruct (IH (add_point o v p buckets)) as [Hle _];
        [rewrite Hkeys; assumption|].
      simpl in Hle. rewrite Hlen in Hle. split; [lia|]. intros Heq. lia.
    + rewrite add_point_fresh by assumption.
      assert (Hnd' : NoDup (map key (buckets ++ [mk_bucket (voxel_of o v p) p 1]))).
      { rewrite map_app. simpl. apply NoDup_app. split; [assumption|]. split.
        - intros k Hk Hk'. apply list_elem_of_singleton in Hk'. subst. contradiction.
        - apply NoDup_singleton. }
      destruct (IH _ Hnd') as [Hle Heq]. simpl in Hle, Heq.
      rewrite length_app in Hle, Heq. simpl in Hle, Heq. split; [lia|].
      intros Hfull. rewrite map_app, <- app_assoc in Heq. simpl in Heq.
      apply Heq. lia.
Qed.

(** C7.  Downsampling at [v] a cloud that was downsampled at [v] returns
    that cloud, the same points in the same order, exactly when no two
    points of the downsampled cloud fall into one voxel of the grid of the
    second pass.  The statement is about voxel downsampling as the
    specification describes it, on floats, wherever the grid starts. *)
Theorem voxel_down_sample_again (v : float) (points : list Point) :
  let down := VoxelGrid.voxel_down_sample anchor v points in
  VoxelGrid.voxel_down_sample anchor v down = down
  <-> NoDup (VoxelGrid.voxels anchor v down).
Proof.
  intros down. generalize down. clear down points. intros down.
  unfold voxel_down_sample, voxels, fill. split.
  - intros Hfixed.
    destruct (fold_add_length (anchor down v) v down [] (NoDup_nil_2))
      as [_ Hnd].
    apply Hnd. simpl.
    rewrite <- Hfixed at 2. rewrite length_map. reflexivity.
  - intros Hnd. rewrite fold_add_distinct by exact Hnd.
    simpl. rewrite map_map.
    transitivity (map id down); [|apply map_id].
    apply map_ext. intros p. apply centroid_single.
Qed.

End VoxelGridFacts.

(** * Mesh cleanup *)

Section ReconstructionFacts.
Context {np : NumPy} {o3d : Open3D}.

(** [create_mesh_from_point_cloud] returns a mesh exactly when the cloud has
    points and the library calls before the cleanup return, and the mesh
    is then the outcome of the four cleanup routines, in their order, on
    the mesh that vertex removal left. *)
Lemma create_mesh_cleanup_order {o3dm : Open3DMesh}
    (pcd : PointCloud) (voxel_size : option float) (mesh : TriangleMesh) :
  create_mesh_from_point_cloud (Some pcd) voxel_size = Ok (Some mesh)
  <-> exists ready q built densities raw,
        len_points pcd <> 0
        /\ (if negb (has_normals pcd)
            then estimated ← estimate_normals pcd
                               (mk_hybrid
                                  (match voxel_size with
                                   | Some voxel_size => voxel_size
                                   | None => diameter pcd * 0.005
                                   end * 2)%float 30);
                 orient_normals_consistent_tangent_plane estimated 15
            else Ok pcd) = Ok ready
        /\ py_int (np_log2
                     (py_float (len_points ready)
                      / np_prod (vec3_sub (get_max_bound ready) (get_min_bound ready)))
                   + 6)%float = Ok q
        /\ create_from_point_cloud_poisson ready (Z.min 12 (Z.max 8 q)) 0
             1.1%float true = Ok (built, densities)
        /\ remove_vertices_by_mask built
             (densities_below densities (np_quantile densities 0.1%float)) = Ok raw
        /\ mesh = remove_non_manifold_edges
                    (remove_duplicated_vertices
                       (remove_duplicated_triangles
                          (remove_degenerate_triangles raw))).
Proof.
  unfold create_mesh_from_point_cloud. split.
  - destruct (len_points pcd =? 0) eqn:Hlen; [discriminate|].
    apply Z.eqb_neq in Hlen.
    match goal with |- (?c ≫= _) = _ -> _ => returned c ready Hnormals end.
    match goal with |- (?c ≫= _) = _ -> _ => returned c q Hq end.
    match goal with |- (?c ≫= _) = _ -> _ => returned c answer Hbuilt end.
    destruct answer as [built densities].
    match goal with |- (?c ≫= _) = _ -> _ => returned c raw Hraw end.
    intros [= <-]. exists ready, q, built, densities, raw.
    repeat split; assumption.
  - intros (ready & q & built & densities & raw
            & Hlen & Hnormals & Hq & Hbuilt & Hraw & ->).
    apply Z.eqb_neq in Hlen. rewrite Hlen.
    rewrite Hnormals, bind_Ok, Hq, bind_Ok, Hbuilt, bind_Ok, Hraw, bind_Ok.
    reflexivity.
Qed.

(** The same for [generate_mesh_from_point_cloud]. *)
Lemma generate_mesh_cleanup_order {o3dm : Open3DMesh}
    (pcd : PointCloud) (depth : Z) (preprocessing : bool) (mesh : TriangleMesh) :
  PointCloudToMesh.generate_mesh_from_point_cloud pcd depth preprocessing = Ok mesh
  <-> exists ready built densities raw,
        (if preprocessing
         then down ← PointCloudToMesh.preprocess_point_cloud pcd
                       PointCloudToMesh.default_voxel_size;
              PointCloudToMesh.remove_outliers down 20 2.0%float
         else Ok pcd) = Ok ready
        /\ create_from_point_cloud_poisson ready depth 0 1.1%float false
           = Ok (built, densities)
        /\ remove_vertices_by_mask built
             (densities_below densities (np_quantile densities 0.1%float)) = Ok raw
        /\ mesh = remove_non_manifold_edges
                    (remove_duplicated_vertices
                       (remove_duplicated_triangles
                          (remove_degenerate_triangles raw))).
Proof.
  unfold PointCloudToMesh.generate_mesh_from_point_cloud. split.
  - match goal with |- (?c ≫= _) = _ -> _ => returned c ready Hpre end.
    match goal with |- (?c ≫= _) = _ -> _ => returned c answer Hbuilt end.
    destruct answer as [built densities].
    match goal with |- (?c ≫= _) = _ -> _ => returned c raw Hraw end.
    intros [= <-]. exists ready, built, densities, raw.
    repeat split; assumption.
  - intros (ready & built & densities & raw & Hpre & Hbuilt & Hraw & ->).
    rewrite Hpre, bind_Ok, Hbuilt, bind_Ok, Hraw, bind_Ok. reflexivity.
Qed.

(** C10.  Both mesh generators call the library's removal of degenerate
    triangles, of duplicated triangles, of duplicated vertices and of
    non-manifold edges in that order on the mesh that vertex removal left,
    and return the outcome of the last call; they return a mesh exactly
    when the library calls before the cleanup return.  The generators
    recompute no area and compare no vertices: a property that the removal
    of duplicated vertices establishes and the removal of non-manifold
    edges keeps holds of every mesh returned. *)
Theorem mesh_cleanup_in_order :
  (forall (o3dm : Open3DMesh) pcd voxel_size mesh,
     create_mesh_from_point_cloud (Some pcd) voxel_size = Ok (Some mesh)
     <-> exists ready q built densities raw,
           len_points pcd <> 0
           /\ (if negb (has_normals pcd)
               then estimated ← estimate_normals pcd
                                  (mk_hybrid
                                     (match voxel_size with
                                      | Some voxel_size => voxel_size
                                      | None => diameter pcd * 0.005
                                      end * 2)%float 30);
                    orient_normals_consistent_tangent_plane estimated 15
               else Ok pcd) = Ok ready
           /\ py_int (np_log2
                        (py_float (len_points ready)
                         / np_prod (vec3_sub (get_max_bound ready)
                                      (get_min_bound ready)))
                      + 6)%float = Ok q
           /\ create_from_point_cloud_poisson ready (Z.min 12 (Z.max 8 q)) 0
                1.1%float true = Ok (built, densities)
           /\ remove_vertices_by_mask built
                (densities_below densities (np_quantile densities 0.1%float))
              = Ok raw
           /\ mesh = remove_non_manifold_edges
                       (remove_duplicated_vertices
                          (remove_duplicated_triangles
                             (remove_degenerate_triangles raw))))
  /\ (forall (o3dm : Open3DMesh) pcd depth preprocessing mesh,
        PointCloudToMesh.generate_mesh_from_point_cloud pcd depth preprocessing
        = Ok mesh
        <-> exists ready built densities raw,
              (if preprocessing
               then down ← PointCloudToMesh.preprocess_point_cloud pcd
                             PointCloudToMesh.default_voxel_size;
                    PointCloudToMesh.remove_outliers down 20 2.0%float
               else Ok pcd) = Ok ready
              /\ create_from_point_cloud_poisson ready depth 0 1.1%float false
                 = Ok (built, densities)
              /\ remove_vertices_by_mask built
                   (densities_below densities (np_quantile densities 0.1%float))
                 = Ok raw
              /\ mesh = remove_non_manifold_edges
                          (remove_duplicated_vertices
                             (remove_duplicated_triangles
                                (remove_degenerate_triangles raw))))
  /\ (forall (o3dm : Open3DMesh) (kept : TriangleMesh -> Prop),
        (forall m, kept (remove_duplicated_vertices m)) ->
        (forall m, kept m -> kept (remove_non_manifold_edges m)) ->
        (forall pcd voxel_size mesh,
           create_mesh_from_point_cloud pcd voxel_size = Ok (Some mesh) -> kept mesh)
        /\ (forall pcd depth preprocessing mesh,
              PointCloudToMesh.generate_mesh_from_point_cloud pcd depth preprocessing
              = Ok mesh -> kept mesh)).
Proof.
  split; [|split].
  - intros o3dm pcd voxel_size mesh. apply create_mesh_cleanup_order.
  - intros o3dm pcd depth preprocessing mesh. apply generate_mesh_cleanup_order.
  - intros o3dm kept Hvertices Hedges. split.
    + intros [pcd|] voxel_size mesh Hrun; [|discriminate Hrun].
      apply create_mesh_cleanup_order in Hrun
        as (ready & q & built & densities & raw & _ & _ & _ & _ & _ & ->).
      apply Hedges, Hvertices.
    + intros pcd depth preprocessing mesh Hrun.
      apply generate_mesh_cleanup_order in Hrun
        as (ready & built & densities & raw & _ & _ & _ & ->).
      apply Hedges, Hvertices.
Qed.

End ReconstructionFacts.

(** ** The pipeline on concrete runs *)

Section Runs.
Import Run.
#[local] Existing Instance Sym.numpy.

Lemma create_point_cloud_depth_gate_witness :
  create_point_cloud (o3d := lib []) tt (depth_row [0; 1500; 2999; 3000; 4000]%float)
    tt 1000 3 = Ok None.
Proof.
  apply (create_point_cloud_depth_gate (o3d := lib []) tt
           (depth_row [0; 1500; 2999; 3000; 4000]%float) tt 1000 3).
  vm_compute. reflexivity.
Defined.

Example create_point_cloud_enough_samples :
  create_point_cloud (o3d := lib []) tt (depth_row (repeat 1500%float 100))
    tt 1000 3
  = Ok (Some (Sym.Inliers (Sym.Scan 0 100 (1, 1, 1)%float) 10 2)).
Proof. vm_compute. reflexivity. Qed.

(** With the default scale 1000 and truncation 3 the bound is 3000. *)
Example default_depth_bound : np_float32 (3 * 1000) = 3000%float.
Proof. reflexivity. Qed.

Lemma fusion_gate_decides_append_witness :
  fuse_frame (o3d := lib [1]) 0.05 4 2 (scan 2) (seed (o3d := lib [1]) (scan 0))
  = merge_frame (o3d := lib [1]) 0.05 4 2 (scan 2) identity4
      (seed (o3d := lib [1]) (scan 0)).
Proof.
  exact (proj1 (proj2 (fusion_gate_decides_append (o3d := lib [1]) 0.05 4 2 (scan 2)
           (seed (o3d := lib [1]) (scan 0)) identity4 eq_refl))).
Defined.

(** C1, as stated, fails.  With [voxel_size = 0.05] and a source of diameter
    10 the loop evaluates at the threshold 0.1, not at 0.02; a frame the
    evaluation gives fitness 0.5 and RMSE 0.05 is merged and its transform
    recorded, though the gate with the threshold [min(0.02, 0.01 * 10)]
    rejects it. *)
Lemma fusion_gate_threshold_counterexample :
  adaptive_threshold (0.05 * 2) (diameter (o3d := lib_loose) (scan 1)) = 0.1%float
  /\ py_min 0.02 (0.01 * diameter (o3d := lib_loose) (scan 1)) = 0.02%float
  /\ gate_as_specified (diameter (o3d := lib_loose) (scan 1)) 0.5 0.05 = false
  /\ exists st',
       fuse_frame (o3d := lib_loose) 0.05 4 1 (scan 1)
         (seed (o3d := lib_loose) (scan 0)) = Ok st'
       /\ merged st' = Sym.Merged (scan 0) (Sym.Moved (scan 1) identity4)
       /\ transformations st' = [identity4; identity4].
Proof.
  split; [|split; [|split]]; try (vm_compute; reflexivity).
  eexists. split; [vm_compute; reflexivity|]. split; reflexivity.
Qed.

Lemma failed_frame_is_skipped_witness :
  fuse_loop (o3d := lib [1]) 0.05 4 [(1, scan 1); (2, scan 2)]
    (seed (o3d := lib [1]) (scan 0))
  = fuse_loop (o3d := lib [1]) 0.05 4 [(2, scan 2)] (seed (o3d := lib [1]) (scan 0)).
Proof.
  apply (failed_frame_is_skipped (o3d := lib [1]) 0.05 4 1 (scan 1) [(2, scan 2)]
           (seed (o3d := lib [1]) (scan 0))).
  right. exists identity4, (PyBool false).
  split; [vm_compute; reflexivity|]. split; vm_compute; reflexivity.
Defined.

Lemma consolidation_follows_position_witness :
  let st' := mk_model (o3d := lib [])
               (Sym.Inliers
                  (Sym.Down (Sym.Merged (scan 0) (Sym.Moved (scan 4) identity4)) 0.05)
                  20 2)
               [identity4; identity4] in
  fuse_frame (o3d := lib []) 0.05 4 4 (scan 4) (seed (o3d := lib []) (scan 0)) = Ok st'
  /\ exists down,
       voxel_down_sample (Open3D := lib [])
         (Sym.Merged (scan 0) (Sym.Moved (scan 4) identity4)) 0.05 = Ok down
       /\ remove_statistical_outlier (Open3D := lib []) down 20 2 = Ok (merged st').
Proof.
  intros st'.
  assert (Hrun : fuse_frame (o3d := lib []) 0.05 4 4 (scan 4)
                   (seed (o3d := lib []) (scan 0)) = Ok st')
    by (vm_compute; reflexivity).
  split; [exact Hrun|].
  destruct (consolidation_follows_position (o3d := lib []) 0.05 4 4 (scan 4)
              (seed (o3d := lib []) (scan 0)) st' Hrun)
    as [Hsame | (t & moved & Hmoved & Hrec & _ & Hcons)].
  - discriminate Hsame.
  - injection Hmoved as <-. injection Hrec as <-. exact Hcons.
Defined.

(** C4, as stated, fails.  With [batch_size = 4]: when frame 4 is rejected
    and frames 1, 2, 3 and 5 are fused, four frames have been fused and the
    model has never been downsampled; when frames 1, 2 and 3 are rejected
    and frame 4 is fused, the model is downsampled after a single fused
    frame. *)
Lemma consolidation_count_counterexample :
  (exists st',
     fuse_loop (o3d := lib [4]) 0.05 4 (enumerate_from 1 (scans [1; 2; 3; 4; 5]))
       (seed (o3d := lib [4]) (scan 0)) = Ok st'
     /\ Sym.frames_of (merged st') = [0; 1; 2; 3; 5]
     /\ length (transformations st') = 5%nat
     /\ Sym.downsampled (merged st') = false)
  /\ (exists st',
        fuse_loop (o3d := lib [1; 2; 3]) 0.05 4 (enumerate_from 1 (scans [1; 2; 3; 4]))
          (seed (o3d := lib [1; 2; 3]) (scan 0)) = Ok st'
        /\ Sym.frames_of (merged st') = [0; 4]
        /\ length (transformations st') = 2%nat
        /\ Sym.downsampled (merged st') = true).
Proof.
  split; eexists; (split; [vm_compute; reflexivity|]); repeat split.
Qed.

(** C3, as stated, fails.  When ICP answers with a transform that holds an
    infinite entry, [multi_scale_icp] returns that transform. *)
Lemma multi_scale_icp_inf_counterexample :
  multi_scale_icp (o3d := lib_icp infinity) (Some (scan 1)) (Some (scan 0)) None
  = Ok (Some (with_entry infinity))
  /\ any_isinf (with_entry infinity) = true.
Proof. split; vm_compute; reflexivity. Qed.

Example evaluate_registration_none_source :
  evaluate_registration (o3d := lib []) None (Some (scan 0)) identity4 0.02
    !! "success" = None.
Proof. reflexivity. Qed.

Example multi_scale_icp_nan_falls_back :
  multi_scale_icp (o3d := lib_icp nan) (Some (scan 1)) (Some (scan 0)) None
  = Ok (Some identity4).
Proof. vm_compute. reflexivity. Qed.

(** Eleven frames, of which frame 1 is rejected by the fusion loop: the
    model after the loop holds frames 0, 2, ..., 10 and ten transforms.  The
    loop-closure gate passes, the rebuild starts from frame 0 and reads
    [transformations[i]] for [i = 1, ..., 10]; the read at [i = 10] raises
    [IndexError], which the handler catches, and [merged] is left holding
    frames 0, 1, ..., 9 of the rebuild, not the model of the loop. *)
Lemma loop_closure_rebuild_cut_short_witness :
  exists st,
    fuse_loop (o3d := lib [1]) 0.05 4 (enumerate_from 1 (scans (tail eleven)))
      (seed (o3d := lib [1]) (scan 0)) = Ok st
    /\ Sym.frames_of (merged st) = [0; 2; 3; 4; 5; 6; 7; 8; 9; 10]
    /\ length (transformations st) = 10%nat
    /\ snd (loop_closure (o3d := lib [1]) (scans eleven) 0.05 st) = Some IndexError
    /\ Sym.frames_of (fst (loop_closure (o3d := lib [1]) (scans eleven) 0.05 st))
       = [0; 1; 2; 3; 4; 5; 6; 7; 8; 9]
    /\ fst (loop_closure (o3d := lib [1]) (scans eleven) 0.05 st) <> merged st.
Proof.
  eexists. split; [vm_compute; reflexivity|].
  split; [vm_compute; reflexivity|]. split; [reflexivity|].
  match goal with
  | |- snd (loop_closure ?l ?v ?st) = _ /\ _ =>
      destruct (loop_closure_rebuild_cut_short (o3d := lib [1]) l v st identity4)
        as (first_pcd & rest & e & _ & _ & He);
        [reflexivity | vm_compute; reflexivity | simpl; lia |]
  end.
  split; [vm_compute; reflexivity|]. split; [vm_compute; reflexivity|].
  intros H. apply (f_equal Sym.frames_of) in H. vm_compute in H. discriminate H.
Defined.

Lemma voxel_down_sample_again_witness :
  VoxelGrid.voxel_down_sample VoxelGrid.at_origin 0.05
    (VoxelGrid.voxel_down_sample VoxelGrid.at_origin 0.05 sample_points)
  = VoxelGrid.voxel_down_sample VoxelGrid.at_origin 0.05 sample_points.
Proof.
  apply (proj2 (voxel_down_sample_again VoxelGrid.at_origin 0.05 sample_points)).
  apply (bool_decide_unpack _). vm_compute. exact I.
Defined.

Example voxel_down_sample_merges :
  length (VoxelGrid.voxel_down_sample VoxelGrid.at_origin 0.05 sample_points)
  = 3%nat.
Proof. reflexivity. Qed.

(** The centroid of three points at 0.1 is rounded up to the edge of their
    voxel and leaves it: the second pass merges it with the point at
    0.15. *)
Lemma voxel_down_sample_rounding_counterexample :
  let v := edge_above_tenth in
  let down := VoxelGrid.voxel_down_sample VoxelGrid.at_origin v near_boundary in
  (0 <? v)%float = true
  /\ down = [ (v, 0, 0); (0.15, 0, 0) ]%float
  /\ VoxelGrid.voxel_down_sample VoxelGrid.at_origin v down = [ (0.125, 0, 0) ]%float
  /\ VoxelGrid.voxel_down_sample VoxelGrid.at_origin v down <> down.
Proof.
  repeat split; try (vm_compute; reflexivity).
  intros H. apply (f_equal length) in H. vm_compute in H. discriminate H.
Qed.

(** On a grid that moves with the cloud the second pass can merge points
    without any rounding: the first pass raises the least coordinate from
    0 to 0.1875, and the point at 0.625 is then in the first voxel. *)
Example voxel_down_sample_moving_grid :
  let down := VoxelGrid.voxel_down_sample VoxelGrid.at_bounds 1 dyadic_points in
  down = [ (0.1875, 0, 0); (0.625, 0, 0) ]%float
  /\ VoxelGrid.voxel_down_sample VoxelGrid.at_bounds 1 down
     = [ (0.40625, 0, 0) ]%float.
Proof. split; vm_compute; reflexivity. Qed.

Lemma mesh_cleanup_in_order_witness :
  exists mesh : MeshModel.Mesh (V := Z * Z * Z),
    create_mesh_from_point_cloud (o3dm := mesh_lib) (Some block) (Some 0.05%float)
    = Ok (Some mesh)
    /\ PointCloudToMesh.generate_mesh_from_point_cloud (o3dm := mesh_lib) block 9 true
       = Ok mesh
    /\ NoDup (MeshModel.vertices mesh).
Proof.
  pose proof (mesh_cleanup_in_order (o3d := lib [])) as (Hcreate & Hgenerate & Hkept).
  assert (Hrun : exists mesh,
             create_mesh_from_point_cloud (o3dm := mesh_lib) (Some block)
               (Some 0.05%float) = Ok (Some mesh)
             /\ PointCloudToMesh.generate_mesh_from_point_cloud (o3dm := mesh_lib)
                  block 9 true = Ok mesh).
  { eexists. split.
    - apply (Hcreate mesh_lib). eexists _, _, raw_mesh, _, raw_mesh.
      split; [vm_compute; discriminate|].
      split; [vm_compute; reflexivity|].
      split; [vm_compute; reflexivity|].
      split; [vm_compute; reflexivity|].
      split; [vm_compute; reflexivity|].
      reflexivity.
    - apply (Hgenerate mesh_lib). eexists _, raw_mesh, _, raw_mesh.
      split; [vm_compute; reflexivity|].
      split; [vm_compute; reflexivity|].
      split; [vm_compute; reflexivity|].
      reflexivity. }
  destruct Hrun as (mesh & Hmesh & Hmesh'). exists mesh.
  split; [exact Hmesh|]. split; [exact Hmesh'|].
  apply (proj1 (Hkept mesh_lib (fun m => NoDup (MeshModel.vertices m))
                  (fun m => NoDup_remove_dups (MeshModel.vertices m))
                  (fun m Hm => Hm)) (Some block) (Some 0.05%float) mesh Hmesh).
Defined.

(** The triangle on the vertices (0, 0, 0), (1, 0, 0) and (2, 0, 0) names
    three different vertices and has no area: a degenerate test on the
    indices leaves it, and both generators return it. *)
Lemma mesh_cleanup_zero_area_counterexample :
  exists mesh : MeshModel.Mesh (V := Z * Z * Z),
    create_mesh_from_point_cloud (o3dm := mesh_lib) (Some block) (Some 0.05%float)
    = Ok (Some mesh)
    /\ PointCloudToMesh.generate_mesh_from_point_cloud (o3dm := mesh_lib) block 9 true
       = Ok mesh
    /\ (0, 2, 3)%nat ∈ MeshModel.triangles mesh
    /\ MeshModel.corners (MeshModel.vertices mesh) (0, 2, 3)%nat
       = Some ((0, 0, 0), (1, 0, 0), (2, 0, 0))
    /\ lattice_zero_area (0, 0, 0) (1, 0, 0) (2, 0, 0) = true.
Proof.
  eexists. split; [vm_compute; reflexivity|].
  split; [vm_compute; reflexivity|].
  split; [|split; reflexivity].
  right. left.
Qed.

End Runs.

(** * Properties of the remaining functions *)


(** ** The registration module *)

Section RegistrationFacts.
Context {np : NumPy} {o3d : Open3D}.

(** ** Multi-scale registration on clouds that are too small *)

Lemma icp_scale_skipped source target i voxel_size t :
  scale_skipped source target voxel_size ->
  icp_scale source target i voxel_size t = Ok t.
Proof.
  intros (sd & sf & td & tf & Hs & Ht & Hnone). unfold icp_scale.
  rewrite Hs, bind_Ok, Ht, bind_Ok.
  destruct Hnone as [-> | ->]; [reflexivity|]. destruct sd; reflexivity.
Qed.

Lemma icp_scales_skipped source target scales :
  forall (start : Z) (t : Transform),
    Forall (scale_skipped source target) scales ->
    icp_scales source target (enumerate_from start scales) t = Ok t.
Proof.
  induction scales as [|v rest IH]; intros start t Hall; simpl.
  - reflexivity.
  - inversion Hall as [|v' rest' Hv Hrest]; subst.
    rewrite (icp_scale_skipped _ _ _ _ _ Hv), bind_Ok. apply IH. assumption.
Qed.

(** X1.  When at every scale of the schedule the downsampled source or the
    downsampled target is rejected (no points, or fewer than 10 after
    downsampling), [multi_scale_icp] runs no registration and returns the
    identity. *)
Theorem multi_scale_icp_small_clouds (source target : PointCloud)
    (voxel_sizes : option (list float)) :
  Forall (scale_skipped source target) (chosen_scales source voxel_sizes) ->
  multi_scale_icp (Some source) (Some target) voxel_sizes = Ok (Some identity4).
Proof.
  intros Hall. unfold multi_scale_icp. fold (chosen_scales source voxel_sizes).
  rewrite (icp_scales_skipped _ _ _ 0 identity4 Hall), bind_Ok. reflexivity.
Qed.

(** ** Budgets handed to the library *)

Lemma py_int_raises (x : float) (e : exn) :
  py_int x = Raise e -> e = ValueError \/ e = OverflowError.
Proof.
  unfold py_int. destruct (Prim2SF x); intros [= <-]; auto.
Qed.

(** X2.  Global registration of two clouds with their features either
    raises what [int()] raised while the validation budget was computed, or
    returns what RANSAC returned, [None] standing for any exception of the
    library, for a call at the distance threshold
    [min(1.5 * voxel_size, 0.05 * min(source_diameter, target_diameter))]
    whose iteration budget lies in [100000, 4000000] and whose validation
    budget lies in [50, 500]. *)
Theorem execute_global_registration_budgets
    (source_down target_down : PointCloud) (source_fpfh target_fpfh : Feature)
    (voxel_size : float) :
  (exists e,
     execute_global_registration (Some source_down) (Some target_down)
       (Some source_fpfh) (Some target_fpfh) voxel_size = Raise e
     /\ (e = ValueError \/ e = OverflowError))
  \/ exists max_iterations max_validation,
       let distance_threshold :=
         py_min (voxel_size * 1.5)%float
           (py_min (diameter source_down) (diameter target_down) * 0.05)%float in
       100000 <= max_iterations <= 4000000
       /\ 50 <= max_validation <= 500
       /\ execute_global_registration (Some source_down) (Some target_down)
            (Some source_fpfh) (Some target_fpfh) voxel_size
          = Ok match registration_ransac_based_on_feature_matching
                       source_down target_down source_fpfh target_fpfh true
                       distance_threshold false 3 0.9%float distance_threshold
                       max_iterations max_validation with
               | Ok result => Some result
               | Raise _ => None
               end.
Proof.
  unfold execute_global_registration.
  destruct (py_int _) as [q|e] eqn:Hq; rewrite ?bind_Ok, ?bind_Raise.
  - right.
    exists (Z.min 4000000
         (Z.max 100000
            (Z.min (len_points source_down) (len_points target_down) * 1000))),
      (Z.min 500 (Z.max 50 q)).
    split; [lia|]. split; [lia|].
    unfold try_except, ransac_call.
    destruct (registration_ransac_based_on_feature_matching _ _ _ _ _ _ _ _ _ _ _ _);
      reflexivity.
  - left. exists e. split; [reflexivity|]. eapply py_int_raises. eassumption.
Qed.

(** X3.  Local refinement never raises: it returns [None], or the result of
    an ICP call that returned, made at the distance threshold
    [min(0.4 * voxel_size, 0.02 * source_diameter)] with an iteration cap in
    [30, 100]. *)
Theorem refine_registration_absorbs_errors
    (source target : PointCloud) (initial_transform : Transform)
    (voxel_size : float) :
  refine_registration (Some source) (Some target) (Some initial_transform) voxel_size
  = None
  \/ exists max_iteration result,
       let distance_threshold :=
         py_min (voxel_size * 0.4)%float (diameter source * 0.02)%float in
       30 <= max_iteration <= 100
       /\ registration_icp source target distance_threshold initial_transform
            max_iteration = Ok result
       /\ refine_registration (Some source) (Some target) (Some initial_transform)
            voxel_size = Some result.
Proof.
  unfold refine_registration.
  destruct (py_int _) as [q|e]; rewrite ?bind_Ok, ?bind_Raise; [|left; reflexivity].
  destruct (registration_icp _ _ _ _ _) as [result|e] eqn:Hicp;
    rewrite ?bind_Ok, ?bind_Raise; [|left; reflexivity].
  right. eexists _, result. split; [|split; [exact Hicp | reflexivity]]. lia.
Qed.

End RegistrationFacts.

Section FusionFacts.
Context {np : NumPy} {o3d : Open3D}.

(** ** Entries that are [None] *)

Lemma collect_diameters_none (pcd_list : list (option PointCloud)) :
  forall diameters,
    None ∈ pcd_list -> collect_diameters pcd_list diameters = Raise AttributeError.
Proof.
  induction pcd_list as [|pcd rest IH]; intros diameters Hin.
  - inversion Hin.
  - destruct pcd as [pcd|]; simpl; [|reflexivity].
    apply IH. apply elem_of_cons in Hin as [Hhead|Htail]; [discriminate | assumption].
Qed.

Lemma long_sequence_branch (pcd_list : list (option PointCloud)) :
  (2 <= length pcd_list)%nat ->
  bool_decide (pcd_list = []) || (Z.of_nat (length pcd_list) <? 2) = false.
Proof.
  intros Hlen. apply orb_false_iff. split.
  - apply bool_decide_eq_false. intros ->. simpl in Hlen. lia.
  - apply Z.ltb_ge. lia.
Qed.

(** X4.  Called without a voxel size on a sequence of two or more entries
    of which one is [None], [incremental_registration] raises an attribute
    error while it estimates the scale: the filter that drops [None]
    entries comes too late for them. *)
Theorem incremental_registration_none_entry
    (pcd_list : list (option PointCloud)) (batch_size : Z) :
  (2 <= length pcd_list)%nat ->
  None ∈ pcd_list ->
  incremental_registration pcd_list None batch_size = Raise AttributeError.
Proof.
  intros Hlen Hnone. unfold incremental_registration.
  rewrite long_sequence_branch by assumption.
  rewrite collect_diameters_none by assumption. reflexivity.
Qed.

(** ** Which sequences give a model *)

Lemma elem_of_valid_clouds (pcd_list : list (option PointCloud)) (pcd : PointCloud) :
  pcd ∈ valid_clouds pcd_list <-> Some pcd ∈ pcd_list /\ 0 < len_points pcd.
Proof.
  induction pcd_list as [|[p|] rest IH]; simpl.
  - split; [intros Hin; inversion Hin | intros [Hin _]; inversion Hin].
  - destruct (0 <? len_points p) eqn:Hlen.
    + rewrite !elem_of_cons, IH. apply Z.ltb_lt in Hlen. split.
      * intros [->|[Hin Hpos]]; [split; [left; reflexivity | assumption]|].
        split; [right|]; assumption.
      * intros [[[= ->]|Hin] Hpos]; [left; reflexivity | right; split; assumption].
    + rewrite elem_of_cons, IH. apply Z.ltb_ge in Hlen. split.
      * intros [Hin Hpos]. split; [right|]; assumption.
      * intros [[[= ->]|Hin] Hpos]; [lia | split; assumption].
  - rewrite elem_of_cons, IH. split.
    + intros [Hin Hpos]. split; [right|]; assumption.
    + intros [[Heq|Hin] Hpos]; [discriminate Heq | split; assumption].
Qed.

(** The filter keeps nothing exactly when no entry is a cloud with
    points. *)
Lemma valid_clouds_nil (pcd_list : list (option PointCloud)) :
  valid_clouds pcd_list = []
  <-> forall pcd, Some pcd ∈ pcd_list -> len_points pcd <= 0.
Proof.
  split.
  - intros Hnil pcd Hin. destruct (Z_le_gt_dec (len_points pcd) 0) as [|Hpos];
      [assumption|]. exfalso.
    assert (Hvalid : pcd ∈ valid_clouds pcd_list)
      by (apply elem_of_valid_clouds; split; [assumption | lia]).
    rewrite Hnil in Hvalid. inversion Hvalid.
  - intros Hall. destruct (valid_clouds pcd_list) as [|pcd rest] eqn:Hvalid;
      [reflexivity|]. exfalso.
    assert (Hin : pcd ∈ valid_clouds pcd_list) by (rewrite Hvalid; left).
    apply elem_of_valid_clouds in Hin as [Hin Hpos].
    specialize (Hall pcd Hin). lia.
Qed.

Lemma valid_clouds_app (before after : list (option PointCloud)) :
  valid_clouds (before ++ after) = valid_clouds before ++ valid_clouds after.
Proof.
  induction before as [|[p|] rest IH]; simpl; [reflexivity| |assumption].
  destruct (0 <? len_points p); simpl; rewrite IH; reflexivity.
Qed.

(** X5.  Given a voxel size and a sequence of two or more entries,
    [incremental_registration] returns [None] exactly when no entry is a
    cloud with points: every entry is [None] or a cloud without points. *)
Theorem incremental_registration_none_iff
    (pcd_list : list (option PointCloud)) (voxel_size : float) (batch_size : Z) :
  (2 <= length pcd_list)%nat ->
  incremental_registration pcd_list (Some voxel_size) batch_size = Ok None
  <-> forall pcd, Some pcd ∈ pcd_list -> len_points pcd <= 0.
Proof.
  intros Hlen. rewrite <- valid_clouds_nil.
  unfold incremental_registration. rewrite long_sequence_branch by assumption.
  rewrite bind_Ok. destruct (valid_clouds pcd_list) as [|first_pcd rest].
  - split; reflexivity.
  - split; [|discriminate].
    destruct (fuse_loop _ _ _ _) as [st|e]; rewrite ?bind_Ok, ?bind_Raise;
      [|discriminate].
    destruct (finalize _ _) as [m|e]; rewrite ?bind_Ok, ?bind_Raise; discriminate.
Qed.

(** X6.  Given a voxel size, when a sequence of two or more entries holds
    exactly one cloud with points, every other entry being [None] or a
    cloud without points, the result is that cloud after the final cleanup
    (downsampling, outlier removal, normals), or the exception the cleanup
    raised; no registration is run. *)
Theorem incremental_registration_one_valid
    (before after : list (option PointCloud)) (pcd : PointCloud)
    (voxel_size : float) (batch_size : Z) :
  (1 <= length (before ++ after))%nat ->
  0 < len_points pcd ->
  (forall other, Some other ∈ before ++ after -> len_points other <= 0) ->
  incremental_registration (before ++ Some pcd :: after) (Some voxel_size) batch_size
  = (merged ← finalize voxel_size pcd; Ok (Some merged)).
Proof.
  intros Hlen Hpos Hothers. unfold incremental_registration.
  rewrite long_sequence_branch
    by (rewrite length_app in *; simpl; lia).
  rewrite bind_Ok, valid_clouds_app. simpl.
  apply Z.ltb_lt in Hpos. rewrite Hpos.
  assert (Hbefore : valid_clouds before = []).
  { apply valid_clouds_nil. intros other Hin. apply Hothers.
    apply elem_of_app. left. assumption. }
  assert (Hafter : valid_clouds after = []).
  { apply valid_clouds_nil. intros other Hin. apply Hothers.
    apply elem_of_app. right. assumption. }
  rewrite Hbefore, Hafter. reflexivity.
Qed.

(** ** The transforms the loop records *)

Lemma fuse_frame_records voxel_size batch_size i current_pcd st st' :
  fuse_frame voxel_size batch_size i current_pcd st = Ok st' ->
  exists added,
    transformations st' = transformations st ++ added /\ (length added <= 1)%nat.
Proof.
  unfold fuse_frame.
  destruct (multi_scale_icp _ _ _) as [[t|]|e]; rewrite ?bind_Ok, ?bind_Raise;
    [| intros [= <-]; exists []; rewrite app_nil_r; split; [reflexivity | simpl; lia]
     | discriminate].
  match goal with |- (?c ≫= _) = _ -> _ => returned c success Hsuccess end.
  destruct (truthy success).
  - intros Hmerge. apply merge_frame_records in Hmerge.
    exists [t]. split; [assumption | simpl; lia].
  - intros [= <-]. exists []. rewrite app_nil_r. split; [reflexivity | simpl; lia].
Qed.

(** X7.  The fusion loop only appends to the recorded transforms, at most
    one for each frame: the transforms after the loop are those before it
    followed by at most as many new ones as there were frames. *)
Theorem fuse_loop_records voxel_size batch_size frames :
  forall st st',
    fuse_loop voxel_size batch_size frames st = Ok st' ->
    exists added,
      transformations st' = transformations st ++ added
      /\ (length added <= length frames)%nat.
Proof.
  induction frames as [|[i current_pcd] rest IH]; intros st st'; simpl.
  - intros [= <-]. exists []. rewrite app_nil_r. split; [reflexivity | simpl; lia].
  - destruct (fuse_frame voxel_size batch_size i current_pcd st) as [st1|e] eqn:Hframe;
      rewrite ?bind_Ok, ?bind_Raise; [|discriminate].
    intros Hrest.
    destruct (fuse_frame_records _ _ _ _ _ _ Hframe) as (a1 & Ha1 & Hl1).
    destruct (IH _ _ Hrest) as (a2 & Ha2 & Hl2).
    exists (a1 ++ a2). rewrite Ha2, Ha1, <- app_assoc. split; [reflexivity|].
    rewrite length_app. simpl. lia.
Qed.

(** ** A batch size of zero *)

(** X8.  With [batch_size = 0] the first frame that passes the gate and is
    transformed raises a division error when the batch test is reached,
    and the fusion loop raises it in turn. *)
Theorem fuse_frame_zero_batch voxel_size i current_pcd rest st t moved :
  multi_scale_icp (Some current_pcd) (Some (merged st))
    (Some (scale_schedule voxel_size)) = Ok (Some t) ->
  judged (voxel_size * 2)%float current_pcd (merged st) t = true ->
  transform current_pcd t = Ok moved ->
  fuse_frame voxel_size 0 i current_pcd st = Raise ZeroDivisionError
  /\ fuse_loop voxel_size 0 ((i, current_pcd) :: rest) st = Raise ZeroDivisionError.
Proof.
  intros Hicp Hgate Hmoved.
  assert (Hframe : fuse_frame voxel_size 0 i current_pcd st = Raise ZeroDivisionError).
  { rewrite (fuse_frame_judged _ _ _ _ _ _ Hicp), Hgate.
    unfold merge_frame. rewrite Hmoved, bind_Ok. reflexivity. }
  split; [exact Hframe|]. simpl. rewrite Hframe. reflexivity.
Qed.

(** ** The rebuild when no frame was skipped *)

Lemma rebuild_library_errors transformations error_root frames :
  forall (start : Z) (merged : PointCloud),
    0 <= start ->
    start + Z.of_nat (length frames) <= Z.of_nat (length transformations) ->
    snd (rebuild transformations error_root (enumerate_from start frames) merged)
    = None
    \/ exists current_pcd corrected e,
         transform current_pcd corrected = Raise e
         /\ snd (rebuild transformations error_root (enumerate_from start frames)
                   merged) = Some e.
Proof.
  induction frames as [|current_pcd rest IH]; intros start merged Hstart Hlen.
  - left. reflexivity.
  - simpl. unfold py_index.
    destruct (transformations !! Z.to_nat start) as [t|] eqn:Hlookup.
    + rewrite bind_Ok.
      destruct (transform current_pcd _) as [moved|e] eqn:Hmoved.
      * apply IH; [lia|]. simpl length in Hlen. lia.
      * right. eexists current_pcd, _, e. split; [exact Hmoved | reflexivity].
    + apply lookup_ge_None in Hlookup. simpl length in Hlen. lia.
Qed.

(** X9.  When the loop-closure gate passes and every valid cloud was fused
    (as many transforms recorded as there are valid clouds), the rebuild
    reads only recorded transforms: it runs to the end, or stops on an
    exception raised by the library's [transform]. *)
Theorem loop_closure_rebuild_in_range valid_pcd_list voxel_size st error_root :
  10 < Z.of_nat (length valid_pcd_list) ->
  loop_closure_gate valid_pcd_list voxel_size st = Ok (Some error_root) ->
  length (transformations st) = length valid_pcd_list ->
  snd (loop_closure valid_pcd_list voxel_size st) = None
  \/ exists current_pcd corrected e,
       transform current_pcd corrected = Raise e
       /\ snd (loop_closure valid_pcd_list voxel_size st) = Some e.
Proof.
  intros Hlong Hgate Hall. unfold loop_closure.
  apply Z.ltb_lt in Hlong. rewrite Hlong, Hgate.
  destruct valid_pcd_list as [|first_pcd rest]; [simpl in Hlong; discriminate|].
  apply rebuild_library_errors; [lia|]. rewrite Hall. simpl length. lia.
Qed.

(** ** The dictionary of the evaluation *)

(** X10.  Every dictionary [evaluate_registration] returns has the entries
    "fitness", "inlier_rmse" and "correspondence_set"; and when its
    "success" entry is true, source and target are clouds, the library
    evaluation at the adaptive threshold returned, the "fitness" and
    "inlier_rmse" entries are the library's, the fitness is above 0.3 and
    the RMSE below twice the adaptive threshold. *)
Theorem evaluate_registration_entries
    (source target : option PointCloud) (t : Transform) (threshold : float) :
  let metrics := evaluate_registration source target t threshold in
  (is_Some (metrics !! "fitness") /\ is_Some (metrics !! "inlier_rmse")
   /\ is_Some (metrics !! "correspondence_set"))
  /\ forall success,
       metrics !! "success" = Some success -> truthy success = true ->
       exists source_pcd target_pcd evaluation,
         source = Some source_pcd /\ target = Some target_pcd
         /\ o3d_evaluate_registration source_pcd target_pcd
              (adaptive_threshold threshold (diameter source_pcd)) t = Ok evaluation
         /\ metrics !! "fitness" = Some (PyFloat (fitness evaluation))
         /\ metrics !! "inlier_rmse" = Some (PyFloat (inlier_rmse evaluation))
         /\ (0.3 <? fitness evaluation)%float = true
         /\ (inlier_rmse evaluation
             <? adaptive_threshold threshold (diameter source_pcd) * 2)%float = true.
Proof.
  intros metrics. subst metrics. unfold evaluate_registration.
  destruct source as [source_pcd|], target as [target_pcd|];
    try (split; [repeat split; eexists; reflexivity | intros success [=]]).
  destruct (o3d_evaluate_registration _ _ _ _) as [evaluation|e] eqn:Hev.
  - split; [repeat split; eexists; reflexivity|].
    intros success [= <-] Htrue. simpl in Htrue.
    apply andb_true_iff in Htrue as [Hfit Hrmse].
    exists source_pcd, target_pcd, evaluation. repeat split; assumption.
  - split; [repeat split; eexists; reflexivity|].
    intros success [= <-] Htrue. discriminate Htrue.
Qed.

End FusionFacts.

Section WholePipelineFacts.
Context {np : NumPy} {o3d : Open3D} {o3dm : Open3DMesh}.

(** X11.  [create_mesh_from_point_cloud] returns [None] exactly when the
    cloud is [None] or has no points. *)
Theorem create_mesh_none_iff (pcd : option PointCloud) (voxel_size : option float) :
  create_mesh_from_point_cloud pcd voxel_size = Ok None
  <-> pcd = None \/ exists cloud, pcd = Some cloud /\ len_points cloud = 0.
Proof.
  unfold create_mesh_from_point_cloud. destruct pcd as [cloud|].
  - destruct (len_points cloud =? 0) eqn:Hlen.
    + apply Z.eqb_eq in Hlen. split; [|reflexivity].
      intros _. right. exists cloud. split; [reflexivity | assumption].
    + apply Z.eqb_neq in Hlen. split.
      * match goal with |- (?c ≫= _) = _ -> _ => returned c pcd' Hnormals end.
        match goal with |- (?c ≫= _) = _ -> _ => returned c q Hq end.
        match goal with |- (?c ≫= _) = _ -> _ => returned c built Hbuilt end.
        destruct built as [mesh0 densities].
        match goal with |- (?c ≫= _) = _ -> _ => returned c raw Hraw end.
        discriminate.
      * intros [Hnone | (c & [= <-] & Hzero)]; [discriminate | contradiction].
  - split; [intros _; left; reflexivity | reflexivity].
Qed.

Lemma collect_point_clouds_insufficient pairs intrinsic depth_scale depth_trunc :
  forall point_clouds,
    Forall (fun pair => count_valid depth_scale depth_trunc (as_float32 pair.2) < 100)
      pairs ->
    collect_point_clouds pairs intrinsic depth_scale depth_trunc point_clouds
    = Ok point_clouds.
Proof.
  induction pairs as [|[frame depth_map] rest IH]; intros point_clouds Hall; simpl.
  - reflexivity.
  - inversion Hall as [|pair rest' Hpair Hrest]; subst. simpl in Hpair.
    assert (Hnone : create_point_cloud frame depth_map intrinsic depth_scale depth_trunc
                    = Ok None).
    { unfold create_point_cloud. fold (as_float32 depth_map).
      apply Z.ltb_lt in Hpair. rewrite Hpair. reflexivity. }
    rewrite Hnone, bind_Ok. apply IH. assumption.
Qed.

(** X12.  When each depth map that is paired with a frame has fewer than
    100 valid samples, [process_frames_to_mesh] returns [None], whatever
    the library routines would do. *)
Theorem process_frames_to_mesh_insufficient frames depth_maps intrinsic
    depth_scale depth_trunc :
  Forall (fun pair => count_valid depth_scale depth_trunc (as_float32 pair.2) < 100)
    (zip frames depth_maps) ->
  process_frames_to_mesh frames depth_maps intrinsic depth_scale depth_trunc = Ok None.
Proof.
  intros Hall. unfold process_frames_to_mesh.
  rewrite (collect_point_clouds_insufficient _ _ _ _ [] Hall). reflexivity.
Qed.

(** X13.  When a single frame is given and its cloud has points, the mesh
    is built from that cloud as [create_point_cloud] returned it, at the
    voxel size of 1% of the median of its one diameter: the sequence of one
    cloud goes through [incremental_registration] untouched, with none of
    the fusion's downsampling, outlier removal or normal estimation. *)
Theorem process_frames_to_mesh_single_frame frame depth_map intrinsic
    depth_scale depth_trunc pcd :
  create_point_cloud frame depth_map intrinsic depth_scale depth_trunc = Ok (Some pcd) ->
  0 < len_points pcd ->
  process_frames_to_mesh [frame] [depth_map] intrinsic depth_scale depth_trunc
  = create_mesh_from_point_cloud (Some pcd)
      (Some (np_median [diameter pcd] * 0.01)%float).
Proof.
  intros Hcloud Hpoints.
  assert (Hpos : (0 <? len_points pcd) = true) by (apply Z.ltb_lt; assumption).
  assert (Hne : (len_points pcd =? 0) = false) by (apply Z.eqb_neq; lia).
  unfold process_frames_to_mesh.
  change (zip [frame] [depth_map]) with [(frame, depth_map)].
  unfold collect_point_clouds. rewrite Hcloud, bind_Ok, Hpos, bind_Ok.
  change (incremental_registration (map Some ([] ++ [pcd])) _ _) with (Ok (Some pcd)).
  rewrite bind_Ok, Hne. reflexivity.
Qed.

(** X14.  Frames and depth maps are paired by position and what is left of
    the longer sequence is ignored. *)
Theorem process_frames_to_mesh_pairs frames depth_maps intrinsic
    depth_scale depth_trunc :
  let n := Nat.min (length frames) (length depth_maps) in
  process_frames_to_mesh frames depth_maps intrinsic depth_scale depth_trunc
  = process_frames_to_mesh (take n frames) (take n depth_maps) intrinsic
      depth_scale depth_trunc.
Proof.
  intros n. unfold process_frames_to_mesh.
  replace (zip (take n frames) (take n depth_maps)) with (zip frames depth_maps);
    [reflexivity|].
  subst n. revert depth_maps.
  induction frames as [|f frames IH]; intros [|d depth_maps]; simpl; try reflexivity.
  rewrite <- IH. reflexivity.
Qed.

Lemma traverse_Ok {A B} (f : A -> res B) (l : list A) (bs : list B) :
  traverse f l = Ok bs <-> Forall2 (fun a b => f a = Ok b) l bs.
Proof.
  revert bs. induction l as [|a rest IH]; intros bs; simpl.
  - split.
    + intros [= <-]. constructor.
    + intros H. inversion H. reflexivity.
  - split.
    + destruct (f a) as [b|e] eqn:Hfa; rewrite ?bind_Ok, ?bind_Raise; [|discriminate].
      destruct (traverse f rest) as [bs'|e] eqn:Hrest;
        rewrite ?bind_Ok, ?bind_Raise; [|discriminate].
      intros [= <-]. constructor; [assumption|]. apply IH. reflexivity.
    + intros H. inversion H as [|a' b l' bs' Hfa Hrest]; subst.
      rewrite Hfa, bind_Ok. apply IH in Hrest. rewrite Hrest, bind_Ok. reflexivity.
Qed.

(** X15.  With a positive number of workers, [process_multiple_point_clouds]
    returns a list exactly when every cloud yields a mesh, and then the
    list holds, in the order of the clouds, the mesh
    [generate_mesh_from_point_cloud] makes of each with preprocessing on;
    with a number of workers that is not positive it raises a value
    error. *)
Theorem process_multiple_point_clouds_in_order
    (pcd_list : list PointCloud) (depth max_workers : Z) :
  (0 < max_workers ->
   forall meshes,
     process_multiple_point_clouds pcd_list depth max_workers = Ok meshes
     <-> Forall2
           (fun pcd mesh =>
              PointCloudToMesh.generate_mesh_from_point_cloud pcd depth true = Ok mesh)
           pcd_list meshes)
  /\ (max_workers <= 0 ->
      process_multiple_point_clouds pcd_list depth max_workers = Raise ValueError).
Proof.
  unfold process_multiple_point_clouds. split.
  - intros Hpos meshes. apply Z.leb_gt in Hpos. rewrite Hpos. apply traverse_Ok.
  - intros Hneg. apply Z.leb_le in Hneg. rewrite Hneg. reflexivity.
Qed.

End WholePipelineFacts.

Section MainFacts.
Import Main.
Context {Frame : Type}.

Lemma read_frames_multiples (skip : Z) (stream : list Frame) :
  skip <> 0 ->
  forall frames count,
    read_frames skip stream frames count = Ok (frames ++ multiples skip stream count).
Proof.
  intros Hskip. induction stream as [|frame rest IH]; intros frames count; simpl.
  - rewrite app_nil_r. reflexivity.
  - unfold py_mod. apply Z.eqb_neq in Hskip. rewrite Hskip, bind_Ok. rewrite IH.
    destruct (count mod skip =? 0); [rewrite <- app_assoc|]; reflexivity.
Qed.

Lemma multiples_lookup (skip : Z) (stream : list Frame) :
  0 < skip ->
  forall count (k : nat),
    0 <= count ->
    multiples skip stream count !! k
    = stream !! Z.to_nat ((- count) mod skip + Z.of_nat k * skip).
Proof.
  intros Hskip. induction stream as [|frame rest IH]; intros count k Hcount; simpl.
  - rewrite !lookup_nil. reflexivity.
  - assert (Hnext : (- (count + 1)) mod skip = (- count) mod skip - 1
                    \/ (count mod skip = 0 /\ (- (count + 1)) mod skip = skip - 1)).
    { destruct (Z.eq_dec (count mod skip) 0) as [Hz|Hnz].
      - right. split; [assumption|].
        apply Z.mod_divide in Hz; [|lia]. destruct Hz as [q ->].
        replace (- (q * skip + 1)) with (skip - 1 + (- q - 1) * skip) by lia.
        rewrite Z.mod_add by lia. apply Z.mod_small. lia.
      - left.
        pose proof (Z.mod_pos_bound count skip Hskip) as Hb.
        assert (Hneg : (- count) mod skip = skip - count mod skip)
          by (apply Z.mod_opp_l_nz; lia).
        rewrite Hneg.
        replace (- (count + 1)) with (skip - count mod skip - 1
                                      + (- (count / skip) - 1) * skip).
        + rewrite Z.mod_add by lia. apply Z.mod_small. lia.
        + pose proof (Z.div_mod count skip ltac:(lia)). lia. }
    destruct (count mod skip =? 0) eqn:Hz.
    + apply Z.eqb_eq in Hz.
      assert (Hzero : (- count) mod skip = 0).
      { apply Z.mod_divide; [lia|]. apply Z.mod_divide in Hz; [|lia].
        destruct Hz as [q ->]. exists (- q). lia. }
      rewrite Hzero. destruct k as [|k].
      * reflexivity.
      * simpl lookup at 1. rewrite IH by lia.
        destruct Hnext as [Hn | [_ Hn]]; [rewrite Hzero in Hn;
          pose proof (Z.mod_pos_bound (- (count + 1)) skip Hskip); lia|].
        rewrite Hn.
        replace (Z.to_nat (0 + Z.of_nat (S k) * skip))
          with (S (Z.to_nat (skip - 1 + Z.of_nat k * skip))) by lia.
        reflexivity.
    + apply Z.eqb_neq in Hz. rewrite IH by lia.
      destruct Hnext as [Hn | [Hc _]]; [|contradiction].
      rewrite Hn.
      pose proof (Z.mod_pos_bound (- (count + 1)) skip Hskip) as Hb.
      replace (Z.to_nat ((- count) mod skip + Z.of_nat k * skip))
        with (S (Z.to_nat ((- count) mod skip - 1 + Z.of_nat k * skip))) by nia.
      reflexivity.
Qed.

(** X16.  For a positive [skip_frames], [extract_frames] returns the frames
    of the video at the positions 0, [skip_frames], [2 * skip_frames], ...:
    its entry [k] is the frame [k * skip_frames] of the video, it has an
    entry [k] exactly when the video has that frame, and so it holds the
    number of frames divided by [skip_frames], rounded up.  With
    [skip_frames = 0] a video of at least one frame raises a division
    error. *)
Theorem extract_frames_every_nth (stream : list Frame) (skip_frames : Z) :
  (0 < skip_frames ->
   exists frames,
     extract_frames (Stream stream) skip_frames = Ok frames
     /\ (forall k : nat, frames !! k = stream !! (k * Z.to_nat skip_frames)%nat)
     /\ Z.of_nat (length frames)
        = (Z.of_nat (length stream) + skip_frames - 1) / skip_frames)
  /\ (skip_frames = 0 -> stream <> [] ->
      extract_frames (Stream stream) skip_frames = Raise ZeroDivisionError).
Proof.
  split.
  - intros Hskip. exists (multiples skip_frames stream 0).
    assert (Hlookup : forall k : nat,
               multiples skip_frames stream 0 !! k
               = stream !! (k * Z.to_nat skip_frames)%nat).
    { intros k. rewrite multiples_lookup by lia.
      rewrite Z.mod_0_l by lia. f_equal. nia. }
    split; [simpl; rewrite read_frames_multiples by lia; reflexivity|].
    split; [exact Hlookup|].
    set (frames := multiples skip_frames stream 0) in *.
    assert (Hup : Z.of_nat (length stream) <= Z.of_nat (length frames) * skip_frames).
    { pose proof (Hlookup (length frames)) as H.
      rewrite (proj2 (lookup_ge_None frames (length frames))) in H by lia.
      symmetry in H. apply lookup_ge_None in H. nia. }
    assert (Hlow : (Z.of_nat (length frames) - 1) * skip_frames
                   < Z.of_nat (length stream) \/ length frames = 0%nat).
    { destruct (length frames) as [|n] eqn:Hn; [right; reflexivity|]. left.
      assert (His : is_Some (frames !! n))
        by (apply lookup_lt_is_Some; lia).
      rewrite Hlookup in His. apply lookup_lt_is_Some in His. nia. }
    apply Z.div_unique with
      (r := Z.of_nat (length stream) + skip_frames - 1
            - skip_frames * Z.of_nat (length frames)); [|lia].
    left. destruct Hlow as [Hlow | Hzero]; [nia|]. rewrite Hzero in *. simpl in *. nia.
  - intros -> Hne. destruct stream as [|frame rest]; [contradiction|]. reflexivity.
Qed.

End MainFacts.

Section DepthMapFacts.
Import DepthMap.

(** X17.  Once a path has been converted, the cache answers for it: a
    later conversion of the same path returns the same data URL and leaves
    the cache as it is, whatever the file holds by then; a conversion that
    fails leaves the cache as it was. *)
Theorem convert_image_cached (w w' : World) (image_path : string)
    (st st1 : state (w := w)) (result : option string) :
  convert_image_to_data_url (w := w) image_path st = (result, st1) ->
  match result with
  | Some data_url =>
      image_cache st1 !! image_path = Some data_url
      /\ convert_image_to_data_url (w := w')
           image_path (mk_state (w := w') (image_cache st1) [])
         = (Some data_url, mk_state (w := w') (image_cache st1) [])
  | None => st1 = st
  end.
Proof.
  unfold convert_image_to_data_url. intros Hconv.
  destruct (image_cache st !! image_path) as [url|] eqn:Hhit.
  - injection Hconv as <- <-. split; [assumption|]. simpl. rewrite Hhit. reflexivity.
  - destruct (jpeg_base64 image_path) as [base64_str|e].
    + injection Hconv as <- <-. simpl. rewrite lookup_insert_eq.
      split; reflexivity.
    + injection Hconv as <- <-. reflexivity.
Qed.

Section OneWorld.
Context {w : World}.

Lemma process_image_length output_dir image_path depth_maps st :
  let n := length (process_image output_dir image_path depth_maps st).1 in
  (length depth_maps + 1 <= n <= length depth_maps + 2)%nat
  /\ ((output_dir = None \/ forall p d, raised (np_save p d) = false) ->
      n = (length depth_maps + 1)%nat).
Proof.
  unfold process_image.
  destruct (generate_depth_map image_path st) as [[depth_map|] st1]; simpl.
  - destruct output_dir as [output_dir|]; simpl.
    + destruct (np_save _ depth_map) as [u|e] eqn:Hsave; simpl;
        rewrite ?length_app; simpl.
      * split; [lia|]. intros _. lia.
      * split; [lia|]. intros [Hnone | Hsaves]; [discriminate|].
        specialize (Hsaves (depth_path output_dir image_path) depth_map).
        rewrite Hsave in Hsaves. discriminate.
    + rewrite length_app. simpl. split; [lia|]. intros _. lia.
  - rewrite length_app. simpl. split; [lia|]. intros _. lia.
Qed.

Lemma process_images_length output_dir image_paths :
  forall depth_maps st,
    let n := length (process_images output_dir image_paths depth_maps st).1 in
    (length depth_maps + length image_paths <= n
     <= length depth_maps + 2 * length image_paths)%nat
    /\ ((output_dir = None \/ forall p d, raised (np_save p d) = false) ->
        n = (length depth_maps + length image_paths)%nat).
Proof.
  induction image_paths as [|image_path rest IH]; intros depth_maps st; simpl.
  - split; [lia|]. intros _. lia.
  - pose proof (process_image_length output_dir image_path depth_maps st) as Hone.
    destruct (process_image output_dir image_path depth_maps st) as [maps1 st1].
    simpl in Hone. destruct Hone as [Hbound Hexact].
    specialize (IH maps1 st1). simpl in IH. destruct IH as [IHbound IHexact].
    split; [lia|]. intros Hok. rewrite IHexact, Hexact by assumption. lia.
Qed.

Lemma process_directory_runs input_dir output_dir st st' depth_maps :
  process_directory input_dir output_dir st = Ok (depth_maps, st') ->
  depth_pipe <> None ->
  process_images (given output_dir) (sorted_images input_dir) [] st
  = (depth_maps, st').
Proof.
  unfold process_directory. intros Hrun Hpipe.
  destruct depth_pipe as [pipe|]; [|contradiction].
  match type of Hrun with (?c ≫= _) = _ =>
    destruct c as [u|e]; rewrite ?bind_Ok, ?bind_Raise in Hrun; [|discriminate] end.
  destruct (sorted_images input_dir) as [|image_path rest].
  - injection Hrun as <- <-. reflexivity.
  - injection Hrun as Hrun. exact Hrun.
Qed.

(** X18.  [process_directory] returns at least one entry for each image and
    at most two; it returns exactly one for each image when no output
    directory is given or [np.save] never raises.  The second entry comes
    from a save that raises after the depth map was appended. *)
Theorem process_directory_length (input_dir : string)
    (output_dir : option string) (st st' : state)
    (depth_maps : list (option DepthArray)) :
  process_directory input_dir output_dir st = Ok (depth_maps, st') ->
  depth_pipe <> None ->
  (length (sorted_images input_dir) <= length depth_maps
   <= 2 * length (sorted_images input_dir))%nat
  /\ ((given output_dir = None \/ forall p d, raised (np_save p d) = false) ->
      length depth_maps = length (sorted_images input_dir)).
Proof.
  intros Hrun Hpipe.
  pose proof (process_images_length (given output_dir) (sorted_images input_dir) [] st)
    as Hlen.
  rewrite (process_directory_runs _ _ _ _ _ Hrun Hpipe) in Hlen.
  simpl in Hlen. destruct Hlen as [Hbound Hexact]. split; [lia | exact Hexact].
Qed.

Lemma process_images_app output_dir before after :
  forall depth_maps st,
    process_images output_dir (before ++ after) depth_maps st
    = process_images output_dir after
        (process_images output_dir before depth_maps st).1
        (process_images output_dir before depth_maps st).2.
Proof.
  induction before as [|image_path rest IH]; intros depth_maps st; simpl.
  - reflexivity.
  - destruct (process_image output_dir image_path depth_maps st) as [maps1 st1].
    apply IH.
Qed.

Lemma process_image_appends output_dir image_path depth_maps st :
  process_image output_dir image_path depth_maps st
  = (depth_maps ++ (process_image output_dir image_path [] st).1,
     (process_image output_dir image_path [] st).2).
Proof.
  unfold process_image.
  destruct (generate_depth_map image_path st) as [[depth_map|] st1]; simpl.
  - destruct output_dir as [output_dir|]; simpl; [|reflexivity].
    destruct (np_save _ depth_map); simpl; [reflexivity|].
    rewrite <- app_assoc. reflexivity.
  - reflexivity.
Qed.

(** The entries of the images are appended to those that are there. *)
Lemma process_images_appends output_dir image_paths :
  forall depth_maps st,
    process_images output_dir image_paths depth_maps st
    = (depth_maps ++ (process_images output_dir image_paths [] st).1,
       (process_images output_dir image_paths [] st).2).
Proof.
  induction image_paths as [|image_path rest IH]; intros depth_maps st; simpl.
  - rewrite app_nil_r. reflexivity.
  - rewrite (process_image_appends output_dir image_path depth_maps st).
    destruct (process_image output_dir image_path [] st) as [maps1 st1]. simpl.
    rewrite (IH (depth_maps ++ maps1) st1), (IH maps1 st1). simpl.
    rewrite app_assoc. reflexivity.
Qed.

(** X19.  When the depth map of an image is computed and its save raises,
    the image gets two entries in the result, the depth map and then
    [None], between the entries of the images before it and the entries of
    the images after it.  The result is then longer than the list of
    images, and the entries of every later image come at least one place
    too late to line up with the images. *)
Theorem process_directory_failed_save (input_dir output_dir image_path : string)
    (before after : list string) (pipe : string -> res DepthArray)
    (depth_map : DepthArray) (maps_before : list (option DepthArray))
    (st st0 st1 : state) (e : exn) :
  depth_pipe = Some pipe ->
  output_dir <> EmptyString ->
  mkdir output_dir = Ok tt ->
  sorted_images input_dir = before ++ image_path :: after ->
  process_images (Some output_dir) before [] st = (maps_before, st0) ->
  generate_depth_map image_path st0 = (Some depth_map, st1) ->
  np_save (depth_path output_dir image_path) depth_map = Raise e ->
  exists maps_after st',
    process_images (Some output_dir) after [] st1 = (maps_after, st')
    /\ process_directory input_dir (Some output_dir) st
       = Ok (maps_before ++ [Some depth_map; None] ++ maps_after, st')
    /\ (length before <= length maps_before)%nat
    /\ (length after <= length maps_after)%nat
    /\ (length (sorted_images input_dir)
        < length (maps_before ++ [Some depth_map; None] ++ maps_after))%nat.
Proof.
  intros Hpipe Hout Hmkdir Himages Hbefore Hgen Hsave.
  destruct (process_images (Some output_dir) after [] st1)
    as [maps_after st'] eqn:Hafter.
  exists maps_after, st'. split; [reflexivity|].
  pose proof (process_images_length (Some output_dir) before [] st) as Hlb.
  rewrite Hbefore in Hlb. simpl in Hlb. destruct Hlb as [Hlb _].
  pose proof (process_images_length (Some output_dir) after [] st1) as Hla.
  rewrite Hafter in Hla. simpl in Hla. destruct Hla as [Hla _].
  split; [|split; [lia|split; [lia|]]].
  - unfold process_directory.
    assert (Hgiven : given (Some output_dir) = Some output_dir).
    { unfold given. destruct output_dir as [|c s]; [contradiction | reflexivity]. }
    rewrite Hpipe, Hgiven, Hmkdir, bind_Ok, Himages.
    destruct (before ++ image_path :: after) as [|first others] eqn:Hlist.
    { destruct before; discriminate Hlist. }
    rewrite <- Hlist. f_equal.
    rewrite process_images_app, Hbefore. simpl.
    rewrite (process_image_appends (Some output_dir) image_path maps_before st0).
    unfold process_image at 1 2. rewrite Hgen, Hsave. simpl.
    rewrite process_images_appends, Hafter. simpl.
    rewrite <- app_assoc. reflexivity.
  - rewrite Himages, !length_app. simpl. lia.
Qed.

End OneWorld.
End DepthMapFacts.

Section PointFlowFacts.
Import PointFlow.

Lemma range_from_length (n : nat) (start step : Z) :
  length (range_from n start step) = n.
Proof. revert start. induction n as [|n IH]; intros start; simpl; [|rewrite IH]; reflexivity. Qed.

Lemma range_from_lookup (n : nat) (start step : Z) (k : nat) :
  (k < n)%nat -> range_from n start step !! k = Some (start + Z.of_nat k * step).
Proof.
  revert start k. induction n as [|n IH]; intros start k Hk; [lia|].
  destruct k as [|k]; simpl.
  - f_equal. lia.
  - rewrite IH by lia. f_equal. lia.
Qed.

Lemma ones_between_lookup (n : nat) (i j : Z) (k : nat) :
  0 <= i <= j -> j <= Z.of_nat n -> (k < n)%nat ->
  ones_between n i j !! k
  = Some (if (i <=? Z.of_nat k) && (Z.of_nat k <? j) then 1%float else 0%float).
Proof.
  intros Hij Hjn Hk. unfold ones_between.
  rewrite take_replicate, drop_replicate.
  replace (Nat.min (Z.to_nat i) n) with (Z.to_nat i) by lia.
  replace (Nat.min (Z.to_nat j) n) with (Z.to_nat j) by lia.
  destruct (i <=? Z.of_nat k) eqn:Hlo; simpl.
  - apply Z.leb_le in Hlo.
    rewrite lookup_app_r by (rewrite length_replicate; lia).
    rewrite length_replicate.
    destruct (Z.of_nat k <? j) eqn:Hhi.
    + apply Z.ltb_lt in Hhi.
      rewrite lookup_app_l by (rewrite length_replicate; lia).
      apply lookup_replicate_2. lia.
    + apply Z.ltb_ge in Hhi.
      rewrite lookup_app_r by (rewrite length_replicate; lia).
      rewrite length_replicate. apply lookup_replicate_2. lia.
  - apply Z.leb_gt in Hlo.
    rewrite lookup_app_l by (rewrite length_replicate; lia).
    apply lookup_replicate_2. lia.
Qed.

Lemma ones_between_length (n : nat) (i j : Z) :
  0 <= i <= j -> j <= Z.of_nat n -> length (ones_between n i j) = n.
Proof.
  intros Hij Hjn. unfold ones_between.
  rewrite !length_app, length_take, length_drop, !length_replicate. lia.
Qed.

Lemma one_is_not_zero : Some 1%float <> Some 0%float.
Proof.
  intros H.
  apply (f_equal (fun o => match o with
                           | Some x => (x =? 0)%float
                           | None => false
                           end)) in H.
  vm_compute in H. discriminate H.
Qed.

(** X20.  For an input dimension that is not negative the flow has one
    mask for each layer, each of the length of the input; an even layer
    freezes the first [input_dim // 2] coordinates and an odd layer the
    others, so that of two layers that follow each other every coordinate
    is frozen in exactly one. *)
Theorem layer_masks_alternate (input_dim num_layers : Z) :
  0 <= input_dim ->
  length (layer_masks input_dim num_layers) = Z.to_nat num_layers
  /\ forall i : nat,
       (i < Z.to_nat num_layers)%nat ->
       exists mask,
         layer_masks input_dim num_layers !! i = Some mask
         /\ mask = coupling_mask input_dim (Z.of_nat i)
         /\ length mask = Z.to_nat input_dim
         /\ forall j : nat,
              (j < Z.to_nat input_dim)%nat ->
              mask !! j
              = Some (if Z.even (Z.of_nat i)
                      then if Z.of_nat j <? input_dim / 2 then 1%float else 0%float
                      else if Z.of_nat j <? input_dim / 2 then 0%float else 1%float)
              /\ (mask !! j = Some 1%float
                  <-> coupling_mask input_dim (Z.of_nat i + 1) !! j = Some 0%float).
Proof.
  intros Hdim.
  assert (Hhalf : 0 <= input_dim / 2 <= input_dim).
  { split; [apply Z.div_pos; lia|]. apply Z.div_le_upper_bound; lia. }
  assert (Hcount : (num_layers - 0 + 1 - 1) / 1 = num_layers)
    by (rewrite Z.div_1_r; lia).
  assert (Hclosed : forall (i : Z) (j : nat),
             (j < Z.to_nat input_dim)%nat ->
             coupling_mask input_dim i !! j
             = Some (if Z.even i
                     then if Z.of_nat j <? input_dim / 2 then 1%float else 0%float
                     else if Z.of_nat j <? input_dim / 2 then 0%float else 1%float)).
  { intros i j Hj. unfold coupling_mask.
    rewrite Zeven_mod. destruct (i mod 2 =? 0).
    - rewrite ones_between_lookup by lia.
      replace (0 <=? Z.of_nat j) with true by (symmetry; apply Z.leb_le; lia).
      reflexivity.
    - rewrite ones_between_lookup by lia.
      replace (Z.of_nat j <? input_dim) with true by (symmetry; apply Z.ltb_lt; lia).
      rewrite andb_true_r.
      destruct (Z.of_nat j <? input_dim / 2) eqn:Hlt.
      + apply Z.ltb_lt in Hlt.
        replace (input_dim / 2 <=? Z.of_nat j) with false
          by (symmetry; apply Z.leb_gt; lia).
        reflexivity.
      + apply Z.ltb_ge in Hlt.
        replace (input_dim / 2 <=? Z.of_nat j) with true
          by (symmetry; apply Z.leb_le; lia).
        reflexivity. }
  unfold layer_masks, py_range. rewrite Hcount. split.
  - rewrite length_map, range_from_length. reflexivity.
  - intros i Hi. exists (coupling_mask input_dim (Z.of_nat i)).
    split; [|split; [reflexivity | split]].
    + rewrite list_lookup_fmap, range_from_lookup by assumption.
      simpl. f_equal. f_equal. lia.
    + unfold coupling_mask.
      destruct (Z.of_nat i mod 2 =? 0); apply ones_between_length; lia.
    + intros j Hj. split; [apply Hclosed; assumption|].
      rewrite !Hclosed by assumption.
      replace (Z.of_nat i + 1) with (Z.succ (Z.of_nat i)) by lia.
      rewrite Z.even_succ, <- Z.negb_even.
      destruct (Z.even (Z.of_nat i)), (Z.of_nat j <? input_dim / 2); simpl;
        split; intros H; try reflexivity;
        exfalso; first [exact (one_is_not_zero H) | exact (one_is_not_zero (eq_sym H))].
Qed.


Section GenerateFacts.
Context {Point Latent : Type}.

(** The slices [i : min(i + step, n)] of a row over the starts of a range
    put the row together again. *)
Lemma slices_cover (row : list Point) (n step : Z) :
  0 < step -> length row = Z.to_nat n -> 0 <= n ->
  forall (k : nat) (start : Z),
    0 <= start <= n ->
    k = Z.to_nat ((n - start + step - 1) / step) ->
    concat (map (fun i => py_slice row i (Z.min (i + step) n))
              (range_from k start step))
    = drop (Z.to_nat start) row.
Proof.
  intros Hstep Hlen Hn. induction k as [|k IH]; intros start Hstart Hk.
  - simpl.
    assert (Hle : (n - start + step - 1) / step <= 0) by lia.
    assert (Hend : start = n).
    { destruct (Z.eq_dec start n) as [|Hne]; [assumption|]. exfalso.
      assert (1 <= (n - start + step - 1) / step)
        by (apply Z.div_le_lower_bound; lia).
      lia. }
    subst start. symmetry. apply drop_ge. lia.
  - simpl. unfold py_slice at 1.
    destruct (Z_lt_le_dec (start + step) n) as [Hmore|Hlast].
    + rewrite Z.min_l by lia. rewrite IH.
      * replace (Z.to_nat (start + step) - Z.to_nat start)%nat
          with (Z.to_nat step) by lia.
        replace (Z.to_nat (start + step))
          with (Z.to_nat start + Z.to_nat step)%nat by lia.
        rewrite <- drop_drop. apply take_drop.
      * lia.
      * replace (n - (start + step) + step - 1)
          with ((n - start + step - 1) + (-1) * step) by lia.
        rewrite Z.div_add by lia. lia.
    + rewrite Z.min_r by lia.
      assert (Hless : start < n).
      { destruct (Z.eq_dec start n) as [->|]; [|lia]. exfalso.
        replace (n - n + step - 1) with (step - 1) in Hk by lia.
        rewrite Z.div_small in Hk by lia. discriminate Hk. }
      assert (Hone : (n - start + step - 1) / step = 1).
      { symmetry. apply Z.div_unique with (r := n - start - 1); lia. }
      assert (Hk0 : k = 0%nat) by lia. subst k. simpl.
      rewrite app_nil_r. apply take_ge. rewrite length_drop. lia.
Qed.

Lemma map_concat_slices {A} (g : Point -> Point) (f : A -> list Point) (l : list A) :
  map g (concat (map f l)) = concat (map (fun i => map g (f i)) l).
Proof.
  induction l as [|a rest IH]; simpl; [reflexivity|].
  rewrite map_app, IH. reflexivity.
Qed.

Lemma cat_rows_imap (base : list (list Point)) :
  forall f g : nat -> list Point -> list Point,
    PointFlow.cat_rows (imap f base) (imap g base)
    = Some (imap (fun b row => f b row ++ g b row) base).
Proof.
  induction base as [|row rest IH]; intros f g; simpl; [reflexivity|].
  rewrite IH. reflexivity.
Qed.

Lemma cat_all_imap (f : Z -> nat -> list Point -> list Point)
    (base : list (list Point)) (starts : list Z) :
  forall first : nat -> list Point -> list Point,
    PointFlow.cat_all (imap first base) (map (fun i => imap (f i) base) starts)
    = Some (imap (fun b row => first b row ++ concat (map (fun i => f i b row) starts))
              base).
Proof.
  induction starts as [|i rest IH]; intros first; simpl.
  - f_equal. apply imap_ext. intros b row _. rewrite app_nil_r. reflexivity.
  - rewrite cat_rows_imap. simpl.
    rewrite (IH (fun b row => first b row ++ f i b row)).
    f_equal. apply imap_ext. intros b row _. rewrite <- app_assoc. reflexivity.
Qed.

Lemma generate_batches_pointwise (g : nat -> Point -> Point)
    (flow_reverse : list (list Point) -> Latent -> Z -> res (list (list Point)))
    (num_points : Z) (base_points : list (list Point)) (latent_code : Latent)
    (starts : list Z) :
  pointwise flow_reverse latent_code g ->
  forall generated_points,
    PointFlow.generate_batches flow_reverse starts num_points base_points
      latent_code generated_points
    = Ok (generated_points
          ++ map (fun i =>
                    imap (fun b row =>
                            map (g b) (py_slice row i (Z.min (i + 1000) num_points)))
                      base_points)
              starts).
Proof.
  intros Hflow. induction starts as [|i rest IH]; intros generated_points; simpl.
  - rewrite app_nil_r. reflexivity.
  - rewrite Hflow, bind_Ok, IH, <- app_assoc. simpl. rewrite imap_fmap. reflexivity.
Qed.

(** X21.  When the latent code is given or drawn, [torch.randn] returns
    rows of [num_points > 0] base points and the flow transforms each point
    on its own, [generate] returns every base point transformed, in order:
    cutting the points into batches of 1000 and joining the batches loses
    none, repeats none and moves none. *)
Theorem generate_batches_cover (g : nat -> Point -> Point)
    (sample_prior : Z -> res Latent)
    (randn : Z -> Z -> res (list (list Point)))
    (flow_reverse : list (list Point) -> Latent -> Z -> res (list (list Point)))
    (cat_refuses : list (list (list Point)) -> exn)
    (batch_size num_points : Z) (latent_code : option Latent) (code : Latent)
    (base_points : list (list Point)) :
  0 < num_points ->
  latent_code = Some code
  \/ (latent_code = None /\ sample_prior batch_size = Ok code) ->
  randn batch_size num_points = Ok base_points ->
  Forall (fun row => length row = Z.to_nat num_points) base_points ->
  pointwise flow_reverse code g ->
  PointFlow.generate sample_prior randn flow_reverse cat_refuses
    batch_size num_points latent_code
  = Ok (imap (fun b row => map (g b) row) base_points).
Proof.
  intros Hpos Hlatent Hdrawn Hrows Hflow. unfold PointFlow.generate.
  assert (Hcode : match latent_code with
                  | Some latent_code => Ok latent_code
                  | None => sample_prior batch_size
                  end = Ok code).
  { destruct Hlatent as [->|[-> Hprior]]; [reflexivity | exact Hprior]. }
  rewrite Hcode, bind_Ok, Hdrawn, bind_Ok.
  rewrite (generate_batches_pointwise g) by assumption. rewrite bind_Ok.
  unfold py_range. simpl app.
  destruct (Z.to_nat ((num_points - 0 + 1000 - 1) / 1000)) as [|k] eqn:Hk.
  - exfalso.
    assert (1 <= (num_points - 0 + 1000 - 1) / 1000)
      by (apply Z.div_le_lower_bound; lia).
    lia.
  - simpl range_from. simpl map. unfold PointFlow.torch_cat.
    rewrite (cat_all_imap
               (fun i b row =>
                  map (g b) (py_slice row i (Z.min (i + 1000) num_points)))).
    f_equal. apply imap_ext. intros b row Hlookup. simpl.
    assert (Hrow : length row = Z.to_nat num_points).
    { rewrite Forall_lookup in Hrows. eapply Hrows. eassumption. }
    pose proof (slices_cover row num_points 1000 ltac:(lia) Hrow ltac:(lia)
                  (S k) 0 ltac:(lia) (eq_sym Hk)) as Hcover.
    simpl in Hcover.
    transitivity (map (g b)
                    (py_slice row 0 (Z.min (0 + 1000) num_points)
                     ++ concat (map (fun i => py_slice row i
                                                (Z.min (i + 1000) num_points))
                                  (range_from k (0 + 1000) 1000))));
      [|rewrite Hcover; reflexivity].
    rewrite map_app, map_concat_slices. reflexivity.
Qed.

End GenerateFacts.
End PointFlowFacts.

Section MoreRunsFacts.
Import Run MoreRuns.
#[local] Existing Instance Sym.numpy.

Lemma multi_scale_icp_small_clouds_witness :
  multi_scale_icp (o3d := lib []) (Some sparse_scan) (Some (scan 0)) None
  = Ok (Some identity4).
Proof.
  apply (multi_scale_icp_small_clouds (o3d := lib []) sparse_scan (scan 0) None).
  repeat constructor; eexists _, _, _, _;
    (split; [vm_compute; reflexivity|]); (split; [vm_compute; reflexivity|]);
    left; reflexivity.
Defined.

Lemma incremental_registration_none_entry_witness :
  incremental_registration (o3d := lib []) [Some (scan 0); None] None 4
  = Raise AttributeError.
Proof.
  apply (incremental_registration_none_entry (o3d := lib []) [Some (scan 0); None] 4).
  - simpl; lia.
  - right. left.
Defined.

Lemma incremental_registration_none_iff_witness :
  incremental_registration (o3d := lib []) [None; Some (Sym.Scan 3 0 (0, 0, 0)%float)]
    (Some 0.05%float) 4 = Ok None.
Proof.
  apply (incremental_registration_none_iff (o3d := lib [])
           [None; Some (Sym.Scan 3 0 (0, 0, 0)%float)] 0.05 4).
  - simpl; lia.
  - intros pcd Hin. apply elem_of_cons in Hin as [Hin|Hin]; [discriminate Hin|].
    apply list_elem_of_singleton in Hin. injection Hin as ->. simpl. lia.
Defined.

Lemma incremental_registration_one_valid_witness :
  incremental_registration (o3d := lib [])
    [None; Some (scan 0); Some (Sym.Scan 3 0 (0, 0, 0)%float)] (Some 0.05%float) 4
  = Ok (Some (Sym.Oriented
                (Sym.WithNormals
                   (Sym.Inliers (Sym.Down (scan 0) 0.05) 20 2)
                   (mk_hybrid (0.05 * 2) 30))
                15)).
Proof.
  rewrite (incremental_registration_one_valid (o3d := lib []) [None]
             [Some (Sym.Scan 3 0 (0, 0, 0)%float)] (scan 0) 0.05 4).
  - vm_compute; reflexivity.
  - simpl; lia.
  - reflexivity.
  - intros other Hin. apply elem_of_cons in Hin as [Hin|Hin]; [discriminate Hin|].
    apply list_elem_of_singleton in Hin. injection Hin as ->. simpl. lia.
Defined.

Lemma fuse_loop_records_witness :
  exists st' added,
    fuse_loop (o3d := lib [2]) 0.05 4 (enumerate_from 1 (scans [1; 2; 3]))
      (seed (o3d := lib [2]) (scan 0)) = Ok st'
    /\ transformations st' = [identity4] ++ added
    /\ (length added <= 3)%nat.
Proof.
  destruct (fuse_loop (o3d := lib [2]) 0.05 4 (enumerate_from 1 (scans [1; 2; 3]))
              (seed (o3d := lib [2]) (scan 0))) as [st'|e] eqn:Hrun;
    [|vm_compute in Hrun; discriminate Hrun].
  destruct (fuse_loop_records (o3d := lib [2]) _ _ _ _ _ Hrun) as (added & Ha & Hl).
  exists st', added. split; [reflexivity|]. split; assumption.
Defined.

Lemma fuse_frame_zero_batch_witness :
  fuse_loop (o3d := lib []) 0.05 0 [(1, scan 1); (2, scan 2)]
    (seed (o3d := lib []) (scan 0)) = Raise ZeroDivisionError.
Proof.
  apply (fuse_frame_zero_batch (o3d := lib []) 0.05 1 (scan 1) [(2, scan 2)]
           (seed (o3d := lib []) (scan 0)) identity4 (Sym.Moved (scan 1) identity4));
    vm_compute; reflexivity.
Defined.

Lemma loop_closure_rebuild_in_range_witness :
  exists st,
    fuse_loop (o3d := lib []) 0.05 4 (enumerate_from 1 (scans (tail eleven)))
      (seed (o3d := lib []) (scan 0)) = Ok st
    /\ snd (loop_closure (o3d := lib []) (scans eleven) 0.05 st) = None
    /\ Sym.frames_of (fst (loop_closure (o3d := lib []) (scans eleven) 0.05 st))
       = eleven.
Proof.
  eexists. split; [vm_compute; reflexivity|].
  match goal with
  | |- snd (loop_closure ?l ?v ?st) = _ /\ _ =>
      destruct (loop_closure_rebuild_in_range (o3d := lib []) l v st identity4)
        as [Hdone | (c & t & e & Hraise & _)];
        [reflexivity | vm_compute; reflexivity | reflexivity | | discriminate Hraise]
  end.
  split; [exact Hdone | vm_compute; reflexivity].
Defined.

Lemma process_frames_to_mesh_insufficient_witness :
  process_frames_to_mesh (o3dm := mesh_lib) [tt; tt]
    [depth_row [0; 1500; 4000]%float; depth_row []] tt 1000 3 = Ok None.
Proof.
  apply (process_frames_to_mesh_insufficient (o3dm := mesh_lib)).
  repeat constructor; vm_compute; reflexivity.
Defined.

Lemma process_frames_to_mesh_single_frame_witness :
  process_frames_to_mesh (o3dm := mesh_lib) [tt]
    [depth_row (repeat 1500%float 100)] tt 1000 3
  = create_mesh_from_point_cloud (o3dm := mesh_lib)
      (Some (Sym.Inliers (Sym.Scan 0 100 (1, 1, 1)%float) 10 2))
      (Some (sqrt 3 * 0.01)%float).
Proof.
  rewrite (process_frames_to_mesh_single_frame (o3dm := mesh_lib) tt
             (depth_row (repeat 1500%float 100)) tt 1000 3
             (Sym.Inliers (Sym.Scan 0 100 (1, 1, 1)%float) 10 2));
    [reflexivity | vm_compute; reflexivity | reflexivity].
Defined.

Example process_frames_to_mesh_single_frame_mesh :
  exists mesh,
    process_frames_to_mesh (o3dm := mesh_lib) [tt]
      [depth_row (repeat 1500%float 100)] tt 1000 3 = Ok (Some mesh).
Proof. eexists. vm_compute. reflexivity. Qed.

Example extract_frames_every_third :
  Main.extract_frames (Main.Stream [10; 11; 12; 13; 14; 15; 16]) 3 = Ok [10; 13; 16].
Proof. reflexivity. Qed.

Lemma convert_image_cached_witness :
  DepthMap.convert_image_to_data_url (w := world "new") "a.jpg"
    (DepthMap.mk_state (w := world "new")
       {[ "a.jpg" := "data:image/jpeg;base64,olda.jpg" ]} [])
  = (Some "data:image/jpeg;base64,olda.jpg",
     DepthMap.mk_state (w := world "new")
       {[ "a.jpg" := "data:image/jpeg;base64,olda.jpg" ]} []).
Proof.
  exact (proj2 (convert_image_cached (world "old") (world "new") "a.jpg"
                  (fresh "old")
                  (DepthMap.mk_state (w := world "old")
                     {[ "a.jpg" := "data:image/jpeg;base64,olda.jpg" ]} [])
                  (Some "data:image/jpeg;base64,olda.jpg") eq_refl)).
Defined.

Lemma process_directory_length_witness :
  exists depth_maps st',
    DepthMap.process_directory (w := world "x") "frames" None (fresh "x")
    = Ok (depth_maps, st')
    /\ length depth_maps = 3%nat.
Proof.
  destruct (DepthMap.process_directory (w := world "x") "frames" None (fresh "x"))
    as [[depth_maps st']|e] eqn:Hrun; [|vm_compute in Hrun; discriminate Hrun].
  exists depth_maps, st'. split; [reflexivity|].
  refine (proj2 (process_directory_length (w := world "x") "frames" None (fresh "x")
                   st' depth_maps Hrun _) _).
  - discriminate.
  - left. reflexivity.
Defined.

(** Three images, of which the second cannot be saved: four entries. *)
Example process_directory_misaligned :
  (DepthMap.process_directory (w := world "x") "frames" (Some "out") (fresh "x")
   ≫= fun r => Ok r.1)
  = Ok [Some 29%nat; Some 32%nat; None; Some 29%nat].
Proof. vm_compute. reflexivity. Qed.

Lemma process_directory_failed_save_witness :
  exists st',
    DepthMap.process_directory (w := world "x") "frames" (Some "out") (fresh "x")
    = Ok ([Some 29%nat] ++ [Some 32%nat; None] ++ [Some 29%nat], st').
Proof.
  destruct (process_directory_failed_save (w := world "x") "frames" "out" "full.jpg"
              ["a.jpg"] ["z.png"] (fun data_url => Ok (String.length data_url))
              32%nat [Some 29%nat] (fresh "x")
              (DepthMap.process_images (w := world "x") (Some "out") ["a.jpg"] []
                 (fresh "x")).2
              (DepthMap.generate_depth_map (w := world "x") "full.jpg"
                 (DepthMap.process_images (w := world "x") (Some "out") ["a.jpg"] []
                    (fresh "x")).2).2
              RuntimeError)
    as (maps_after & st' & Hafter & Hrun & _);
    [reflexivity | discriminate | reflexivity | reflexivity | reflexivity
     | reflexivity | reflexivity |].
  exists st'. rewrite Hrun.
  vm_compute in Hafter. injection Hafter as <- _. reflexivity.
Defined.

Lemma layer_masks_alternate_witness :
  0 <= 3 /\ length (PointFlow.layer_masks 3 4) = Z.to_nat 4.
Proof.
  split; [lia | exact (proj1 (layer_masks_alternate 3 4 ltac:(lia)))].
Defined.

Example layer_masks_of_three :
  PointFlow.layer_masks 3 4 = [ [1; 0; 0]; [0; 1; 1]; [1; 0; 0]; [0; 1; 1] ]%float.
Proof. reflexivity. Qed.

Lemma generate_batches_cover_witness :
  PointFlow.generate (fun _ => Ok tt) counting_randn shift_flow
    (fun _ => RuntimeError) 2 2500 None
  = Ok [row_from 1; row_from 5002].
Proof.
  rewrite (generate_batches_cover (fun b p => p + Z.of_nat b + 1)
             (fun _ => Ok tt) counting_randn shift_flow (fun _ => RuntimeError)
             2 2500 None tt [row_from 0; row_from 5000]).
  - vm_compute; reflexivity.
  - lia.
  - right. split; reflexivity.
  - vm_compute; reflexivity.
  - repeat constructor; vm_compute; reflexivity.
  - intros t k; reflexivity.
Defined.

End MoreRunsFacts.
